(** * SWE-bench data point validator: a shallow embedding

    The development follows the three Python modules of the repository:
    - [swe_bench_validator/data_loader.py]  (module [DataLoader]),
    - [swe_bench_validator/formatter.py]    (module [Formatter]),
    - [validate_swe_bench.py]               (module [Validator]).

    Python values that come out of [json.load] are modelled by the type
    [json]; Python exceptions by the error side of [Result]; the file system
    and the external harness are threaded through explicitly.

    Limits of the model, stated once:
    - a Python [str] is a [string] whose characters are the code points
      below 256, one character per code point;
    - JSON numbers are integers (no floating point values);
    - a path is the string handed to the operating system; [pathlib]'s
      normalisation of separators is not modelled. *)

From Stdlib Require Import ZArith QArith Lia List Bool Ascii String.
From stdpp Require Import base option list strings gmap pretty.

Open Scope string_scope.
#[local] Set Warnings "-register-all".

(** ** Python values *)

Module Py.

(** What [json.load] can return (floats apart).  A [dict] is an association
    list; the first binding of a key is the one the dict holds. *)
Inductive json : Type :=
  | JNull
  | JBool (b : bool)
  | JNum (z : Z)
  | JStr (s : string)
  | JArr (l : list json)
  | JObj (kvs : list (string * json)).

(** Exceptions: every exception the modelled code can meet derives from
    [Exception]; [text] is [str(e)]. *)
Inductive exn_kind : Type :=
  | AttributeError | TypeError | KeyError | JSONDecodeError | OSError.

Record exn : Type := Exn { kind : exn_kind; text : string }.

Inductive Result (A : Type) : Type :=
  | Ok (a : A)
  | Raise (e : exn).
Arguments Ok {A} a.
Arguments Raise {A} e.

Definition bind {A B : Type} (r : Result A) (k : A -> Result B) : Result B :=
  match r with
  | Ok a => k a
  | Raise e => Raise e
  end.

Notation "'let*' x ':=' c 'in' k" := (bind c (fun x => k))
  (at level 10, x name, c at level 100, k at level 200).

(** [type(v).__name__] *)
Definition type_name (v : json) : string :=
  match v with
  | JNull => "NoneType"
  | JBool _ => "bool"
  | JNum _ => "int"
  | JStr _ => "str"
  | JArr _ => "list"
  | JObj _ => "dict"
  end.

(** [bool(v)] *)
Definition truthy (v : json) : bool :=
  match v with
  | JNull => false
  | JBool b => b
  | JNum z => negb (z =? 0)%Z
  | JStr s => negb (String.eqb s "")
  | JArr l => match l with [] => false | _ => true end
  | JObj kvs => match kvs with [] => false | _ => true end
  end.

(** Lookup in a dict given as an association list. *)
Fixpoint assoc (k : string) (kvs : list (string * json)) : option json :=
  match kvs with
  | [] => None
  | (k', v) :: rest => if String.eqb k k' then Some v else assoc k rest
  end.

Definition no_attribute (v : json) (name : string) : exn :=
  Exn AttributeError
      ("'" ++ type_name v ++ "' object has no attribute '" ++ name ++ "'").

(** [d.get(k, default)]; only a dict has [get]. *)
Definition get (d : json) (k : string) (default : json) : Result json :=
  match d with
  | JObj kvs => Ok (match assoc k kvs with Some v => v | None => default end)
  | _ => Raise (no_attribute d "get")
  end.

(** [d[k]] for a string key. *)
Definition getitem (d : json) (k : string) : Result json :=
  match d with
  | JObj kvs =>
      match assoc k kvs with
      | Some v => Ok v
      | None => Raise (Exn KeyError ("'" ++ k ++ "'"))
      end
  | JStr _ | JArr _ =>
      Raise (Exn TypeError
                 (type_name d ++ " indices must be integers or slices, not str"))
  | _ => Raise (Exn TypeError
                    ("'" ++ type_name d ++ "' object is not subscriptable"))
  end.

(** [prefix] is a prefix of [s]. *)
Fixpoint starts_with (prefix s : string) : bool :=
  match prefix, s with
  | EmptyString, _ => true
  | String a p, String b t => Ascii.eqb a b && starts_with p t
  | String _ _, EmptyString => false
  end.

(** [sub in s] for two strings. *)
Fixpoint is_substring (sub s : string) : bool :=
  starts_with sub s ||
  match s with
  | EmptyString => false
  | String _ t => is_substring sub t
  end.

(** [s.endswith(suffix)] *)
Definition ends_with (s suffix : string) : bool :=
  starts_with (String.rev suffix) (String.rev s).

(** Python's [==] between a string and a value. *)
Definition eq_str (k : string) (v : json) : bool :=
  match v with
  | JStr s => String.eqb k s
  | _ => false
  end.

(** [k in c] for a string [k]: key test on a dict, element test on a list,
    substring test on a string; other values are not iterable. *)
Definition contains (k : string) (c : json) : Result bool :=
  match c with
  | JObj kvs => Ok (match assoc k kvs with Some _ => true | None => false end)
  | JArr l => Ok (existsb (eq_str k) l)
  | JStr s => Ok (is_substring k s)
  | _ => Raise (Exn TypeError
                    ("argument of type '" ++ type_name c ++ "' is not iterable"))
  end.

(** The characters [str.strip()] removes, among the code points below 256. *)
Definition is_space (a : ascii) : bool :=
  let n := nat_of_ascii a in
  (Nat.leb 9 n && Nat.leb n 13) || (Nat.leb 28 n && Nat.leb n 32)
  || Nat.eqb n 133 || Nat.eqb n 160.

Fixpoint lstrip (s : string) : string :=
  match s with
  | EmptyString => EmptyString
  | String a t => if is_space a then lstrip t else s
  end.

(** [s.strip()] *)
Definition strip (s : string) : string :=
  String.rev (lstrip (String.rev (lstrip s))).

(** [v.strip()]; only a [str] has [strip]. *)
Definition strip_method (v : json) : Result string :=
  match v with
  | JStr s => Ok (strip s)
  | _ => Raise (no_attribute v "strip")
  end.

(** *** Hashable values and [set(...)] *)

(** The hashable JSON values, up to Python's [==]: [True == 1] and
    [False == 0], so booleans are stored as integers. *)
Inductive hkey : Type :=
  | HNone
  | HInt (z : Z)
  | HStr (s : string).

#[global] Instance hkey_eq_dec : EqDecision hkey.
Proof. solve_decision. Defined.

Definition hkey_enc (h : hkey) : unit + Z + string :=
  match h with
  | HNone => inl (inl tt)
  | HInt z => inl (inr z)
  | HStr s => inr s
  end.

Definition hkey_dec (x : unit + Z + string) : hkey :=
  match x with
  | inl (inl _) => HNone
  | inl (inr z) => HInt z
  | inr s => HStr s
  end.

#[global] Instance hkey_countable : Countable hkey.
Proof.
  apply (inj_countable' hkey_enc hkey_dec).
  intros []; reflexivity.
Defined.

(** [hash(v)] succeeds on the immutable values only. *)
Definition to_hkey (v : json) : Result hkey :=
  match v with
  | JNull => Ok HNone
  | JBool b => Ok (HInt (if b then 1 else 0))
  | JNum z => Ok (HInt z)
  | JStr s => Ok (HStr s)
  | _ => Raise (Exn TypeError ("unhashable type: '" ++ type_name v ++ "'"))
  end.

Fixpoint hash_all (l : list json) : Result (list hkey) :=
  match l with
  | [] => Ok []
  | v :: rest =>
      let* h := to_hkey v in
      let* hs := hash_all rest in
      Ok (h :: hs)
  end.

Fixpoint chars (s : string) : list hkey :=
  match s with
  | EmptyString => []
  | String a t => HStr (String a EmptyString) :: chars t
  end.

(** [set(v)]: the elements of a list, the characters of a string, the keys
    of a dict; anything else is not iterable. *)
Definition set_of (v : json) : Result (gset hkey) :=
  match v with
  | JArr l => let* hs := hash_all l in Ok (list_to_set hs)
  | JStr s => Ok (list_to_set (chars s))
  | JObj kvs => Ok (list_to_set (map (fun kv => HStr (fst kv)) kvs))
  | _ => Raise (Exn TypeError ("'" ++ type_name v ++ "' object is not iterable"))
  end.

(** [set(a) == set(b)], the left operand evaluated first. *)
Definition set_eq (a b : json) : Result bool :=
  let* sa := set_of a in
  let* sb := set_of b in
  Ok (bool_decide (sa = sb)).

End Py.

Import Py.

(** ** Files, paths and the state of the world *)

Module OS.

(** What the file system answers for a path.  A state gives the answer
    path by path, as the text of the path spells it: a directory, a text
    file, an entry that is there but whose opening raises [e] (no
    permission, undecodable bytes), or a path whose very lookup raises [e]
    (a name longer than the file system allows, a component below a
    directory that may not be searched).  A path without an answer names
    nothing. *)
Inductive node : Type :=
  | Dir
  | File (content : string)
  | Locked (e : exn)
  | Unreachable (e : exn).

(** The world the validator runs in: the file system and the record of the
    harness invocations made so far, as [(predictions_path, run_id)]. *)
Record state : Type := State {
  fs : gmap string node;
  harness_calls : list (string * string)
}.

(** [Path(a) / b] for a string [b]: an absolute [b] replaces [a]. *)
Definition path_join (a b : string) : string :=
  if String.eqb b "" then a
  else if starts_with "/" b then b
  else a ++ "/" ++ b.

(** [Path(a) / v] for a Python value: only a string can be joined. *)
Definition joinpath (a : string) (v : json) : Result string :=
  match v with
  | JStr b => Ok (path_join a b)
  | _ => Raise (Exn TypeError
                    ("unsupported operand type(s) for /: 'PosixPath' and '"
                       ++ type_name v ++ "'"))
  end.

(** [path.exists()]: [stat] with the errors for a missing entry turned
    into [False]; every other error of the lookup is raised. *)
Definition exists_ (st : state) (p : string) : Result bool :=
  match fs st !! p with
  | Some (Unreachable e) => Raise e
  | Some _ => Ok true
  | None => Ok false
  end.

(** [open(p, 'r', encoding='utf-8')] followed by reading all of it. *)
Definition read_text (st : state) (p : string) : Result string :=
  match fs st !! p with
  | Some (File c) => Ok c
  | Some Dir => Raise (Exn OSError ("[Errno 21] Is a directory: '" ++ p ++ "'"))
  | Some (Locked e) => Raise e
  | Some (Unreachable e) => Raise e
  | None =>
      Raise (Exn OSError ("[Errno 2] No such file or directory: '" ++ p ++ "'"))
  end.

(** The directory part of a path: the text before its last [/], [None]
    for a bare name, which lies in the working directory. *)
Fixpoint parent (p : string) : option string :=
  match p with
  | EmptyString => None
  | String a t =>
      match parent t with
      | Some d => Some (String a d)
      | None => if Ascii.eqb a "/" then Some "" else None
      end
  end.

(** The directory a new entry [p] would be made in is there: [p] is a bare
    name or lies directly under the root, or its directory part names a
    directory.  Otherwise [open] raises. *)
Definition parent_check (st : state) (p : string) : Result unit :=
  match parent p with
  | None | Some EmptyString => Ok tt
  | Some d =>
      match fs st !! d with
      | Some Dir => Ok tt
      | Some (File _) =>
          Raise (Exn OSError ("[Errno 20] Not a directory: '" ++ p ++ "'"))
      | Some (Locked e) => Raise e
      | Some (Unreachable e) => Raise e
      | None =>
          Raise (Exn OSError
                   ("[Errno 2] No such file or directory: '" ++ p ++ "'"))
      end
  end.

(** [open(p, 'w', encoding='utf-8')] followed by writing [content]: an
    existing file is truncated, a missing one is made in its directory. *)
Definition write_text (st : state) (p content : string) : Result state :=
  match fs st !! p with
  | Some Dir => Raise (Exn OSError ("[Errno 21] Is a directory: '" ++ p ++ "'"))
  | Some (Locked e) => Raise e
  | Some (Unreachable e) => Raise e
  | Some (File _) => Ok (State (<[p := File content]> (fs st)) (harness_calls st))
  | None =>
      let* _ := parent_check st p in
      Ok (State (<[p := File content]> (fs st)) (harness_calls st))
  end.

Fixpoint has_slash (s : string) : bool :=
  match s with
  | EmptyString => false
  | String a t => Ascii.eqb a "/" || has_slash t
  end.

(** The part of [p] below directory [d], when [p] is an entry of [d]. *)
Definition entry_name (d p : string) : option string :=
  let prefix := d ++ "/" in
  if starts_with prefix p then
    let name := String.substring (String.length prefix)
                  (String.length p - String.length prefix) p in
    if has_slash name || String.eqb name "" then None else Some name
  else None.

(** The entries a directory listing shows: what is there. *)
Definition listed (st : state) (p : string) : bool :=
  match fs st !! p with
  | Some Dir | Some (File _) | Some (Locked _) => true
  | Some (Unreachable _) | None => false
  end.

(** The entries of [d] whose name ends in [.json], in the order the file
    system lists them. *)
Definition glob_json (st : state) (d : string) : list string :=
  List.filter (fun p => match entry_name d p with
                        | Some name => ends_with name ".json" && listed st p
                        | None => false
                        end)
              (map fst (map_to_list (fs st))).

(** [list(d.glob("*.json"))]: the directory is looked up first, with
    [is_dir()], which raises what [exists()] raises; then its entries are
    listed. *)
Definition glob (st : state) (d : string) : Result (list string) :=
  match fs st !! d with
  | Some (Unreachable e) => Raise e
  | _ => Ok (glob_json st d)
  end.

(** [Path(p).stem] for a path whose name ends in [.json]: the name without
    the suffix, except that the name [.json] has no suffix at all. *)
Definition stem (d p : string) : string :=
  match entry_name d p with
  | Some name =>
      let base := String.substring 0 (String.length name - 5) name in
      if String.eqb base "" then name else base
  | None => p
  end.

End OS.

Import OS.

(** ** [swe_bench_validator/data_loader.py] *)

Module DataLoader.

Section Loader.

(** Python's [json.loads] on a text; [json.load(f)] is [json.loads] of the
    text read from [f]. *)
Variable json_loads : string -> Result json.

Definition json_load (st : state) (p : string) : Result json :=
  let* c := read_text st p in json_loads c.

Definition required_fields : list string :=
  ["instance_id"; "repo"; "base_commit"; "patch"; "FAIL_TO_PASS";
   "PASS_TO_PASS"].

(** The loop over [required_fields]: [false] at the first missing field. *)
Fixpoint check_required (fields : list string) (data_point : json)
  : Result bool :=
  match fields with
  | [] => Ok true
  | field :: rest =>
      let* present := contains field data_point in
      if present then check_required rest data_point else Ok false
  end.

Definition _validate_data_point (data_point : json) : Result bool :=
  let* has_all := check_required required_fields data_point in
  if negb has_all then Ok false
  else
    let* patch := get data_point "patch" (JStr "") in
    let* stripped := strip_method patch in
    if negb (truthy (JStr stripped)) then Ok false
    else
      let* fail_to_pass := get data_point "FAIL_TO_PASS" (JArr []) in
      let* pass_to_pass := get data_point "PASS_TO_PASS" (JArr []) in
      if negb (truthy fail_to_pass) && negb (truthy pass_to_pass)
      then Ok false
      else Ok true.

(** Both [except] clauses return [None]. *)
Definition _load_single_data_point (st : state) (json_file : string)
  : option json :=
  match
    (let* data_point := json_load st json_file in
     let* valid := _validate_data_point data_point in
     Ok (if valid then Some data_point else None))
  with
  | Ok r => r
  | Raise _ => None
  end.

(** The files named by [file_names], [.json] appended where missing, those
    that do not exist skipped; an [exists()] that raises ends the loop. *)
Fixpoint resolve_files (st : state) (data_points_dir : string)
  (file_names : list string) : Result (list string) :=
  match file_names with
  | [] => Ok []
  | file_name :: rest =>
      let file_name :=
        if negb (ends_with file_name ".json") then file_name ++ ".json"
        else file_name in
      let file_path := path_join data_points_dir file_name in
      let* found := exists_ st file_path in
      let* json_files := resolve_files st data_points_dir rest in
      Ok (if found then file_path :: json_files else json_files)
  end.

(** The loading loop; [if data_point:] is the truth value of an
    [Optional[dict]]. *)
Fixpoint load_files (st : state) (json_files : list string)
  : Result (list json) :=
  match json_files with
  | [] => Ok []
  | json_file :: rest =>
      match _load_single_data_point st json_file with
      | Some data_point =>
          if truthy data_point then
            let* _ := get data_point "instance_id" (JStr "unknown") in
            let* data_points := load_files st rest in
            Ok (data_point :: data_points)
          else load_files st rest
      | None => load_files st rest
      end
  end.

Definition load_data_points_by_files (st : state) (data_points_dir : string)
  (file_names : option (list string)) : Result (list json) :=
  let* found := exists_ st data_points_dir in
  if negb found then Ok []
  else
    let* json_files :=
      match file_names with
      | None => glob st data_points_dir
      | Some names => resolve_files st data_points_dir names
      end in
    match json_files with
    | [] => Ok []
    | _ => load_files st json_files
    end.

End Loader.

End DataLoader.

(** ** [swe_bench_validator/formatter.py] *)

Module Formatter.

Definition dquote : ascii := ascii_of_nat 34.
Definition newline : string := String (ascii_of_nat 10) EmptyString.

Definition hex_digit (n : nat) : ascii :=
  match String.get n "0123456789abcdef" with
  | Some a => a
  | None => "0"%char
  end.

(** One character of a string under [json.dumps] with [ensure_ascii]: the
    printable ASCII characters stand for themselves, the quote and the
    backslash are escaped, five control characters have a short escape and
    every other character is written [\u00XX]. *)
Definition escape_char (a : ascii) : string :=
  let n := nat_of_ascii a in
  if Nat.eqb n 34 then String "\" (String dquote EmptyString)
  else if Nat.eqb n 92 then "\\"
  else if Nat.eqb n 10 then "\n"
  else if Nat.eqb n 13 then "\r"
  else if Nat.eqb n 9 then "\t"
  else if Nat.eqb n 8 then "\b"
  else if Nat.eqb n 12 then "\f"
  else if Nat.leb 32 n && Nat.leb n 126 then String a EmptyString
  else "\u00" ++ String (hex_digit (n / 16)) (String (hex_digit (n mod 16)) "").

Fixpoint escape (s : string) : string :=
  match s with
  | EmptyString => EmptyString
  | String a t => escape_char a ++ escape t
  end.

Definition encode_string (s : string) : string :=
  String dquote (escape s) ++ String dquote EmptyString.

(** [json.dumps(v)] with the default separators.  An object is written in
    the order of its association list; the dicts written by the formatter
    have no repeated key. *)
Fixpoint json_dumps (v : json) : string :=
  match v with
  | JNull => "null"
  | JBool true => "true"
  | JBool false => "false"
  | JNum z => pretty z
  | JStr s => encode_string s
  | JArr l =>
      "[" ++
      (fix items (l : list json) : string :=
         match l with
         | [] => ""
         | x :: rest =>
             json_dumps x ++
             match rest with [] => "" | _ => ", " ++ items rest end
         end) l
      ++ "]"
  | JObj kvs =>
      "{" ++
      (fix members (kvs : list (string * json)) : string :=
         match kvs with
         | [] => ""
         | (k, x) :: rest =>
             encode_string k ++ ": " ++ json_dumps x ++
             match rest with [] => "" | _ => ", " ++ members rest end
         end) kvs
      ++ "}"
  end.

Section Format.

(** [self.model_name], fixed by [__init__]. *)
Variable model_name : string.

Definition _convert_single_data_point (data_point : json)
  : Result (option json) :=
  let* instance_id := get data_point "instance_id" JNull in
  let* patch := get data_point "patch" JNull in
  if negb (truthy instance_id) || negb (truthy patch) then Ok None
  else
    Ok (Some (JObj [("instance_id", instance_id);
                    ("model_name_or_path", JStr model_name);
                    ("model_patch", patch)])).

Fixpoint convert_to_predictions (data_points : list json)
  : Result (list json) :=
  match data_points with
  | [] => Ok []
  | data_point :: rest =>
      let* prediction := _convert_single_data_point data_point in
      match prediction with
      | Some p =>
          let* predictions := convert_to_predictions rest in
          Ok (p :: predictions)
      | None =>
          let* _ := get data_point "instance_id" (JStr "unknown") in
          convert_to_predictions rest
      end
  end.

(** The text written for a list of predictions: one line each. *)
Fixpoint jsonl (predictions : list json) : string :=
  match predictions with
  | [] => ""
  | p :: rest => json_dumps p ++ newline ++ jsonl rest
  end.

Definition save_predictions_to_file (st : state) (predictions : list json)
  (file_path : string) : bool * state :=
  match write_text st file_path (jsonl predictions) with
  | Ok st' => (true, st')
  | Raise _ => (false, st)
  end.

End Format.

End Formatter.

(** ** [validate_swe_bench.py] *)

Module Validator.

(** How [subprocess.run] can end. *)
Inductive docker_outcome : Type :=
  | Returned (returncode : Z)
  | TimeoutExpired
  | LaunchError (e : exn).

(** The dict returned by [_run_docker_evaluation]. *)
Inductive docker_result : Type :=
  | DockerOk
  | DockerFailed (error : string).

(** The dict accumulated by [validate_data_points]; [success_rate] is a
    float in the source and an exact rational here. *)
Record all_results : Type := AllResults {
  total_files : Z;
  successful_files : Z;
  failed_files : Z;
  file_results : gmap string json;
  success_rate : Q
}.

Inductive batch_result : Type :=
  | BatchError (error : string)
  | BatchOk (r : all_results).

Section Validate.

Variable json_loads : string -> Result json.

(** The external harness: given the file system and the command line, how
    the subprocess ends and the file system it leaves. *)
Variable harness :
  gmap string node -> list string -> docker_outcome * gmap string node.

(** [self.data_points_dir] *)
Variable data_points_dir : string.

(** [json.loads(v)] for a Python value: only text can be parsed. *)
Definition loads_value (v : json) : Result json :=
  match v with
  | JStr s => json_loads s
  | _ => Raise (Exn TypeError
                    ("the JSON object must be str, bytes or bytearray, not "
                       ++ type_name v))
  end.

(** [d.get(k, default)] for a key that is a Python value. *)
Definition get_value (d k default : json) : Result json :=
  match d with
  | JObj kvs =>
      match k with
      | JStr s => get d s default
      | _ => let* _ := to_hkey k in Ok default
      end
  | _ => Raise (no_attribute d "get")
  end.

Definition failure (error : string) : json :=
  JObj [("success", JBool false); ("error", JStr error)].

(** The lines under [# Extract test results]: the report of the instance
    and the two [success] lists. *)
Definition extract_test_results (report instance_id : json)
  : Result (json * json * json) :=
  let* instance_report := get_value report instance_id (JObj []) in
  let* tests_status := get instance_report "tests_status" (JObj []) in
  let* ftp_status := get tests_status "FAIL_TO_PASS" (JObj []) in
  let* actual_fail_to_pass := get ftp_status "success" (JArr []) in
  let* ptp_status := get tests_status "PASS_TO_PASS" (JObj []) in
  let* actual_pass_to_pass := get ptp_status "success" (JArr []) in
  Ok (instance_report, actual_fail_to_pass, actual_pass_to_pass).

(** The body of the [try] of [_validate_single_result]. *)
Definition read_and_compare (st : state) (instance_id : json)
  (expected_fail_to_pass expected_pass_to_pass : json)
  (report_path : string) : Result json :=
  let* report := DataLoader.json_load json_loads st report_path in
  let* extracted := extract_test_results report instance_id in
  let '(instance_report, actual_fail_to_pass, actual_pass_to_pass) :=
    extracted in
  let* fail_to_pass_match := set_eq expected_fail_to_pass actual_fail_to_pass in
  let* pass_to_pass_match := set_eq expected_pass_to_pass actual_pass_to_pass in
  let* is_resolved := get instance_report "resolved" (JBool false) in
  let status :=
    if fail_to_pass_match && pass_to_pass_match && truthy is_resolved
    then "success" else "test_mismatch" in
  Ok (JObj [("status", JStr status);
            ("resolved", is_resolved);
            ("fail_to_pass_match", JBool fail_to_pass_match);
            ("pass_to_pass_match", JBool pass_to_pass_match);
            ("expected_fail_to_pass", expected_fail_to_pass);
            ("actual_fail_to_pass", actual_fail_to_pass);
            ("expected_pass_to_pass", expected_pass_to_pass);
            ("actual_pass_to_pass", actual_pass_to_pass)]).

Definition _validate_single_result (st : state) (data_point : json)
  (logs_dir : string) : Result json :=
  let* instance_id := getitem data_point "instance_id" in
  let* raw_fail_to_pass := getitem data_point "FAIL_TO_PASS" in
  let* expected_fail_to_pass := loads_value raw_fail_to_pass in
  let* raw_pass_to_pass := getitem data_point "PASS_TO_PASS" in
  let* expected_pass_to_pass := loads_value raw_pass_to_pass in
  let* instance_dir := joinpath logs_dir instance_id in
  let report_path := path_join instance_dir "report.json" in
  let* found := exists_ st report_path in
  if negb found then
    Ok (JObj [("status", JStr "report_not_found");
              ("error", JStr ("File " ++ report_path ++ " not found"))])
  else
    match read_and_compare st instance_id expected_fail_to_pass
            expected_pass_to_pass report_path with
    | Ok r => Ok r
    | Raise e => Ok (JObj [("status", JStr "read_error");
                           ("error", JStr (text e))])
    end.

Definition docker_cmd (predictions_file run_id : string) : list string :=
  ["docker"; "compose"; "run"; "--rm"; "swe-bench-validator";
   "python"; "-m"; "swebench.harness.run_evaluation";
   "--predictions_path"; predictions_file;
   "--run_id"; run_id;
   "--dataset_name"; "SWE-bench/SWE-bench";
   "--clean"; "True"].

Definition _run_docker_evaluation (st : state)
  (predictions_file run_id : string) : docker_result * state :=
  let '(outcome, fs') := harness (fs st) (docker_cmd predictions_file run_id) in
  let st' := State fs' (harness_calls st ++ [(predictions_file, run_id)]) in
  match outcome with
  | Returned returncode =>
      if (returncode =? 0)%Z then (DockerOk, st')
      else (DockerFailed ("Exit code: " ++ pretty returncode), st')
  | TimeoutExpired => (DockerFailed "Timeout", st')
  | LaunchError e => (DockerFailed (text e), st')
  end.

(** The five steps for one file.  An exception raised by a step ends in the
    [except] clause, with the effects made so far kept. *)
Definition _validate_single_file (st : state) (file_name : string)
  : json * state :=
  let run_id := file_name in
  let predictions_file := "predictions_" ++ file_name ++ ".jsonl" in
  let logs_dir := path_join (path_join "logs/run_evaluation" run_id) "gpt-4" in
  match DataLoader.load_data_points_by_files json_loads st data_points_dir
          (Some [file_name]) with
  | Raise e => (failure (text e), st)
  | Ok [] => (failure ("Failed to load " ++ file_name ++ ".json"), st)
  | Ok (data_point :: _) =>
      match get data_point "instance_id" (JStr "unknown") with
      | Raise e => (failure (text e), st)
      | Ok instance_id =>
          match Formatter.convert_to_predictions "gpt-4" [data_point] with
          | Raise e => (failure (text e), st)
          | Ok [] => (failure "Failed to convert to prediction", st)
          | Ok predictions =>
              let '(saved, st1) :=
                Formatter.save_predictions_to_file st predictions
                  predictions_file in
              if negb saved then (failure "Failed to save prediction", st1)
              else
                let '(docker_result, st2) :=
                  _run_docker_evaluation st1 predictions_file run_id in
                match docker_result with
                | DockerFailed error =>
                    (failure ("Docker evaluation failed: " ++ error), st2)
                | DockerOk =>
                    match _validate_single_result st2 data_point logs_dir with
                    | Raise e => (failure (text e), st2)
                    | Ok validation_result =>
                        (JObj [("success", JBool true);
                               ("instance_id", instance_id);
                               ("run_id", JStr run_id);
                               ("validation_result", validation_result)],
                         st2)
                    end
                end
          end
      end
  end.

(** [file_result.get("success", False) and
     file_result.get("validation_result", {}).get("status") == "success"] *)
Definition counts_as_success (file_result : json) : Result bool :=
  let* success := get file_result "success" (JBool false) in
  if negb (truthy success) then Ok false
  else
    let* validation_result := get file_result "validation_result" (JObj []) in
    let* status := get validation_result "status" JNull in
    Ok (eq_str "success" status).

(** The counters and the result map while the loop runs. *)
Record tally : Type := Tally {
  t_successful : Z;
  t_failed : Z;
  t_results : gmap string json
}.

Fixpoint process_files (st : state) (file_names : list string) (acc : tally)
  : Result tally * state :=
  match file_names with
  | [] => (Ok acc, st)
  | file_name :: rest =>
      let '(file_result, st') := _validate_single_file st file_name in
      let results := <[file_name := file_result]> (t_results acc) in
      match counts_as_success file_result with
      | Raise e => (Raise e, st')
      | Ok true =>
          process_files st' rest
            (Tally (t_successful acc + 1) (t_failed acc) results)
      | Ok false =>
          process_files st' rest
            (Tally (t_successful acc) (t_failed acc + 1) results)
      end
  end.

(** [(successful / total) * 100 if total > 0 else 0] *)
Definition rate (successful total : Z) : Q :=
  if (total >? 0)%Z then (inject_Z successful / inject_Z total) * 100 else 0.

Definition validate_data_points (st : state)
  (file_names : option (list string)) : batch_result * state :=
  let file_names :=
    match file_names with
    | None =>
        let* json_files := glob st data_points_dir in
        Ok (map (stem data_points_dir) json_files)
    | Some names => Ok names
    end in
  match file_names with
  | Raise e => (BatchError (text e), st)
  | Ok [] => (BatchError "No files found for processing", st)
  | Ok file_names =>
      let total := Z.of_nat (length file_names) in
      match process_files st file_names (Tally 0 0 ∅) with
      | (Raise e, st') => (BatchError (text e), st')
      | (Ok acc, st') =>
          (BatchOk (AllResults total (t_successful acc) (t_failed acc)
                      (t_results acc) (rate (t_successful acc) total)),
           st')
      end
  end.

End Validate.

End Validator.

(** ** JSON text

    A reader for JSON text, standing for Python's [json.loads] wherever a
    concrete one is needed: the persisted predictions are read back with
    it.  Within the limits above: a number with a fraction or an exponent,
    and a [\u] escape of a code point from 256 on, are refused.  The text of
    the error is not the one Python prints. *)

Module JsonText.

Import Formatter.

Definition is_json_space (a : ascii) : bool :=
  let n := nat_of_ascii a in
  Nat.eqb n 32 || Nat.eqb n 9 || Nat.eqb n 10 || Nat.eqb n 13.

Fixpoint skip_ws (s : string) : string :=
  match s with
  | EmptyString => EmptyString
  | String a t => if is_json_space a then skip_ws t else s
  end.

Definition hex_val (a : ascii) : option nat :=
  let n := nat_of_ascii a in
  if Nat.leb 48 n && Nat.leb n 57 then Some (n - 48)
  else if Nat.leb 97 n && Nat.leb n 102 then Some (n - 87)
  else if Nat.leb 65 n && Nat.leb n 70 then Some (n - 55)
  else None.

(** The character a one-letter escape stands for. *)
Definition unescape (a : ascii) : option ascii :=
  let n := nat_of_ascii a in
  if Nat.eqb n 34 then Some dquote
  else if Nat.eqb n 92 then Some "\"%char
  else if Nat.eqb n 47 then Some "/"%char
  else if Nat.eqb n 98 then Some (ascii_of_nat 8)
  else if Nat.eqb n 102 then Some (ascii_of_nat 12)
  else if Nat.eqb n 110 then Some (ascii_of_nat 10)
  else if Nat.eqb n 114 then Some (ascii_of_nat 13)
  else if Nat.eqb n 116 then Some (ascii_of_nat 9)
  else None.

Definition cons_char (a : ascii) (r : option (string * string))
  : option (string * string) :=
  match r with
  | Some (s, rest) => Some (String a s, rest)
  | None => None
  end.

(** The body of a string literal, after the opening quote: the decoded
    string and the text after the closing quote. *)
Fixpoint parse_str (s : string) : option (string * string) :=
  match s with
  | EmptyString => None
  | String a t =>
      if Ascii.eqb a dquote then Some (EmptyString, t)
      else if Ascii.eqb a "\" then
        match t with
        | EmptyString => None
        | String e t' =>
            if Ascii.eqb e "u" then
              match t' with
              | String h1 (String h2 (String h3 (String h4 t''))) =>
                  match hex_val h1, hex_val h2, hex_val h3, hex_val h4 with
                  | Some d1, Some d2, Some d3, Some d4 =>
                      let n := ((d1 * 16 + d2) * 16 + d3) * 16 + d4 in
                      if Nat.ltb n 256
                      then cons_char (ascii_of_nat n) (parse_str t'')
                      else None
                  | _, _, _, _ => None
                  end
              | _ => None
              end
            else
              match unescape e with
              | Some c => cons_char c (parse_str t')
              | None => None
              end
        end
      else if Nat.ltb (nat_of_ascii a) 32 then None
      else cons_char a (parse_str t)
  end.

Definition is_digit (a : ascii) : bool :=
  let n := nat_of_ascii a in Nat.leb 48 n && Nat.leb n 57.

(** The digits at the head of [s], read in base ten onto [acc]. *)
Fixpoint parse_digits (acc : Z) (s : string) : Z * string :=
  match s with
  | String a t =>
      if is_digit a
      then parse_digits (acc * 10 + Z.of_nat (nat_of_ascii a - 48)) t
      else (acc, s)
  | EmptyString => (acc, s)
  end.

Definition starts_float (s : string) : bool :=
  match s with
  | String a _ => Ascii.eqb a "." || Ascii.eqb a "e" || Ascii.eqb a "E"
  | EmptyString => false
  end.

(** An integer literal without its sign: no leading zero. *)
Definition parse_nat (s : string) : option (Z * string) :=
  match s with
  | String a t =>
      if Ascii.eqb a "0" then
        if starts_float t then None else Some (0%Z, t)
      else if is_digit a then
        let '(z, rest) := parse_digits 0 s in
        if starts_float rest then None else Some (z, rest)
      else None
  | EmptyString => None
  end.

(** [d[k] = v] on an association list without repeated keys. *)
Fixpoint dict_set (kvs : list (string * json)) (k : string) (v : json)
  : list (string * json) :=
  match kvs with
  | [] => [(k, v)]
  | (k', v') :: rest =>
      if String.eqb k k' then (k, v) :: rest
      else (k', v') :: dict_set rest k v
  end.

Definition drop_prefix (n : nat) (s : string) : string :=
  String.substring n (String.length s - n) s.

(** What is being read: a value, the rest of an array, the rest of an
    object. *)
Inductive mode : Type :=
  | MValue
  | MItems (acc : list json)
  | MMembers (acc : list (string * json)).

Fixpoint parse (fuel : nat) (m : mode) (s : string) : option (json * string) :=
  match fuel with
  | O => None
  | S fuel =>
      match m with
      | MValue =>
          match skip_ws s with
          | EmptyString => None
          | String a t =>
              if Ascii.eqb a dquote then
                match parse_str t with
                | Some (str, rest) => Some (JStr str, rest)
                | None => None
                end
              else if Ascii.eqb a "{" then
                match skip_ws t with
                | String b t' =>
                    if Ascii.eqb b "}" then Some (JObj [], t')
                    else parse fuel (MMembers []) t
                | EmptyString => None
                end
              else if Ascii.eqb a "[" then
                match skip_ws t with
                | String b t' =>
                    if Ascii.eqb b "]" then Some (JArr [], t')
                    else parse fuel (MItems []) t
                | EmptyString => None
                end
              else if starts_with "true" (String a t)
                then Some (JBool true, drop_prefix 4 (String a t))
              else if starts_with "false" (String a t)
                then Some (JBool false, drop_prefix 5 (String a t))
              else if starts_with "null" (String a t)
                then Some (JNull, drop_prefix 4 (String a t))
              else if Ascii.eqb a "-" then
                match parse_nat t with
                | Some (z, rest) => Some (JNum (- z), rest)
                | None => None
                end
              else
                match parse_nat (String a t) with
                | Some (z, rest) => Some (JNum z, rest)
                | None => None
                end
          end
      | MItems acc =>
          match parse fuel MValue s with
          | Some (v, rest) =>
              match skip_ws rest with
              | String b t =>
                  if Ascii.eqb b "," then parse fuel (MItems (v :: acc)) t
                  else if Ascii.eqb b "]"
                    then Some (JArr (List.rev (v :: acc)), t)
                  else None
              | EmptyString => None
              end
          | None => None
          end
      | MMembers acc =>
          match skip_ws s with
          | String q t =>
              if Ascii.eqb q dquote then
                match parse_str t with
                | Some (k, rest) =>
                    match skip_ws rest with
                    | String c t' =>
                        if Ascii.eqb c ":" then
                          match parse fuel MValue t' with
                          | Some (v, rest') =>
                              match skip_ws rest' with
                              | String b t'' =>
                                  if Ascii.eqb b ","
                                    then parse fuel
                                           (MMembers (dict_set acc k v)) t''
                                  else if Ascii.eqb b "}"
                                    then Some (JObj (dict_set acc k v), t'')
                                  else None
                              | EmptyString => None
                              end
                          | None => None
                          end
                        else None
                    | EmptyString => None
                    end
                | None => None
                end
              else None
          | EmptyString => None
          end
      end
  end.

Definition decode_error : exn :=
  Exn JSONDecodeError "Expecting value".

(** [json.loads(s)]: one value, nothing but white space after it. *)
Definition json_loads (s : string) : Result json :=
  match parse (2 * String.length s + 2) MValue s with
  | Some (v, rest) =>
      match skip_ws rest with
      | EmptyString => Ok v
      | _ => Raise (Exn JSONDecodeError "Extra data")
      end
  | None => Raise decode_error
  end.

(** Reading a text file in text mode: [\r\n] and [\r] are read as
    [\n]. *)
Fixpoint universal_newlines (s : string) : string :=
  match s with
  | EmptyString => EmptyString
  | String a t =>
      if Nat.eqb (nat_of_ascii a) 13 then
        match t with
        | String b t' =>
            if Nat.eqb (nat_of_ascii b) 10
            then String b (universal_newlines t')
            else String (ascii_of_nat 10) (universal_newlines t)
        | EmptyString => newline
        end
      else String a (universal_newlines t)
  end.

(** The lines of a text, each without its final [\n]. *)
Fixpoint split_lines (s : string) : list string :=
  match s with
  | EmptyString => []
  | String a t =>
      if Nat.eqb (nat_of_ascii a) 10 then EmptyString :: split_lines t
      else
        match split_lines t with
        | [] => [String a EmptyString]
        | line :: lines => String a line :: lines
        end
  end.

Definition read_lines (text : string) : list string :=
  split_lines (universal_newlines text).

(** [[json.loads(line) for line in f]] *)
Fixpoint loads_all (lines : list string) : Result (list json) :=
  match lines with
  | [] => Ok []
  | line :: rest =>
      let* v := json_loads line in
      let* vs := loads_all rest in
      Ok (v :: vs)
  end.

(** Reading a JSON-lines file back. *)
Definition read_jsonl (st : state) (p : string) : Result (list json) :=
  let* text := read_text st p in
  loads_all (read_lines text).

End JsonText.

(** ** A concrete world

    Records, reports, a file system and a harness to run the definitions
    on. *)

Module Scenario.

Import Formatter JsonText Validator.

(** A list of test identifiers as the records hold it: a JSON-encoded
    string. *)
Definition encoded (tests : list string) : json :=
  JStr (json_dumps (JArr (map JStr tests))).

Definition record (instance_id : string) (patch fail_to_pass pass_to_pass : json)
  : json :=
  JObj [("instance_id", JStr instance_id);
        ("repo", JStr "org/project");
        ("base_commit", JStr "0a1b2c3");
        ("patch", patch);
        ("FAIL_TO_PASS", fail_to_pass);
        ("PASS_TO_PASS", pass_to_pass)].

Definition a_patch : json := JStr "diff --git a/f.py b/f.py".

(** [foo.json] of the scenarios of the specification. *)
Definition foo : json := record "foo" a_patch (encoded ["t1"]) (encoded []).

(** Both test lists empty, encoded as the records encode them. *)
Definition both_empty : json := record "void" a_patch (encoded []) (encoded []).

(** [FAIL_TO_PASS] holding a list instead of its encoding. *)
Definition raw_list : json :=
  record "raw" a_patch (JArr [JStr "t1"]) (encoded []).

(** [FAIL_TO_PASS] holding text that is not JSON. *)
Definition garbled : json :=
  record "garbled" a_patch (JStr "t1, t2") (encoded []).

(** A patch that is not text. *)
Definition patch_list : json :=
  record "plist" (JArr [JStr "diff"]) (encoded ["t1"]) (encoded []).

(** An empty instance id. *)
Definition anonymous : json := record "" a_patch (encoded ["t1"]) (encoded []).

Definition crash : json := record "crash" a_patch (encoded ["t1"]) (encoded []).
Definition unsaved : json := record "unsaved" a_patch (encoded ["t1"]) (encoded []).

(** The report the harness writes for one instance. *)
Definition report (instance_id : string) (resolved : json)
  (fail_to_pass pass_to_pass : list string) : json :=
  JObj [(instance_id,
         JObj [("resolved", resolved);
               ("tests_status",
                JObj [("FAIL_TO_PASS",
                       JObj [("success", JArr (map JStr fail_to_pass));
                             ("failure", JArr [])]);
                      ("PASS_TO_PASS",
                       JObj [("success", JArr (map JStr pass_to_pass));
                             ("failure", JArr [])])])])].

Definition logs_dir (run_id : string) : string :=
  path_join (path_join "logs/run_evaluation" run_id) "gpt-4".

Definition report_path (run_id instance_id : string) : string :=
  path_join (path_join (logs_dir run_id) instance_id) "report.json".

Definition files : gmap string node :=
  list_to_map
    [("data_points", Dir);
     ("data_points/foo.json", File (json_dumps foo));
     ("data_points/void.json", File (json_dumps both_empty));
     ("data_points/raw.json", File (json_dumps raw_list));
     ("data_points/garbled.json", File (json_dumps garbled));
     ("data_points/plist.json", File (json_dumps patch_list));
     ("data_points/anonymous.json", File (json_dumps anonymous));
     ("data_points/crash.json", File (json_dumps crash));
     ("data_points/unsaved.json", File (json_dumps unsaved));
     ("data_points/broken.json", File "{not json");
     ("predictions_unsaved.jsonl", Dir)].

Definition world : state := State files [].

(** The harness of the scenarios: run [crash] exits with code 1, every
    other run exits with code 0, and run [foo] leaves a report. *)
Definition harness (fs : gmap string node) (cmd : list string)
  : docker_outcome * gmap string node :=
  let run_id := nth 11 cmd "" in
  if String.eqb run_id "foo" then
    (Returned 0,
     <[report_path "foo" "foo" :=
         File (json_dumps (report "foo" (JBool true) ["t1"] []))]> fs)
  else if String.eqb run_id "crash" then (Returned 1, fs)
  else (Returned 0, fs).

(** The scenario world with one more entry. *)
Definition world_with (p : string) (n : node) : state :=
  State (<[p := n]> files) [].

(** A name of 300 letters, longer than a file system allows for one
    component of a path, and what looking its file up raises. *)
Definition long_name : string :=
  Eval cbv in fold_right String.append "" (repeat "a" 300).

Definition name_too_long : exn :=
  Exn OSError ("[Errno 36] File name too long: 'data_points/" ++ long_name
                 ++ ".json'").

Definition long_name_world : state :=
  world_with ("data_points/" ++ long_name ++ ".json") (Unreachable name_too_long).

(** A record whose instance id is that long name, loaded from [long.json],
    and the world after its run, in which the report path cannot be looked
    up. *)
Definition long_id : json :=
  record long_name a_patch (encoded ["t1"]) (encoded []).

Definition long_id_error : exn :=
  Exn OSError ("[Errno 36] File name too long: '"
                 ++ report_path "long" long_name ++ "'").

Definition long_id_world : state :=
  world_with (report_path "long" long_name) (Unreachable long_id_error).

(** A world in which the report for [foo] is already there. *)
Definition with_report (r : node) : state :=
  world_with (report_path "foo" "foo") r.



End Scenario.

(** ** Vocabulary of the statements *)

Module Shape.

(** The dict [kvs] has the key [f]. *)
Definition has_field (kvs : list (string * json)) (f : string) : bool :=
  match assoc f kvs with Some _ => true | None => false end.

(** The value a dict holds under [k], [None] when there is none. *)
Definition field (v : json) (k : string) : json :=
  match v with
  | JObj kvs => match assoc k kvs with Some x => x | None => JNull end
  | _ => JNull
  end.

Definition is_dict (v : json) : bool :=
  match v with JObj _ => true | _ => false end.

(** The keys of a dict, in order. *)
Definition keys (v : json) : list string :=
  match v with JObj kvs => map fst kvs | _ => [] end.

(** A data point the formatter converts: a dict whose instance id and
    patch are both true values. *)
Definition convertible (data_point : json) : bool :=
  is_dict data_point && truthy (field data_point "instance_id")
  && truthy (field data_point "patch").

(** The prediction made of a data point. *)
Definition prediction_of (model_name : string) (data_point : json) : json :=
  JObj [("instance_id", field data_point "instance_id");
        ("model_name_or_path", JStr model_name);
        ("model_patch", field data_point "patch")].

Definition nonempty_text (v : json) : bool :=
  match v with JStr s => negb (String.eqb s "") | _ => false end.

(** A valid data point as far as the formatter is concerned: a dict whose
    instance id and patch are non-empty texts. *)
Definition valid_data_point (data_point : json) : bool :=
  is_dict data_point && nonempty_text (field data_point "instance_id")
  && nonempty_text (field data_point "patch").

(** No line break in a text. *)
Fixpoint one_line (s : string) : bool :=
  match s with
  | EmptyString => true
  | String a t =>
      negb (Nat.eqb (nat_of_ascii a) 10) && negb (Nat.eqb (nat_of_ascii a) 13)
      && one_line t
  end.


(** A prediction whose three values are texts. *)
Definition text_prediction (i m p : string) : json :=
  JObj [("instance_id", JStr i); ("model_name_or_path", JStr m);
        ("model_patch", JStr p)].


(** [d.get(k, default)] where nothing can raise: the default also when [d]
    is not a dict. *)
Definition sub (d : json) (k : string) (default : json) : json :=
  match d with
  | JObj kvs => match assoc k kvs with Some v => v | None => default end
  | _ => default
  end.

(** The [success] sub-list under the key [category] of the [tests_status]
    mapping of an instance, every missing key standing for an empty
    mapping or list. *)
Definition success_list (report : json) (instance_id category : string)
  : json :=
  sub (sub (sub (sub report instance_id (JObj [])) "tests_status" (JObj []))
           category (JObj []))
      "success" (JArr []).

(** The report has the shape the comparison consumes, as far as the
    entries it holds go: the report, the entry of the instance, its
    [tests_status] and the two categories are mappings where present. *)
Definition report_shape (report : json) (instance_id : string) : bool :=
  let instance_report := sub report instance_id (JObj []) in
  let tests_status := sub instance_report "tests_status" (JObj []) in
  is_dict report && is_dict instance_report && is_dict tests_status
  && is_dict (sub tests_status "FAIL_TO_PASS" (JObj []))
  && is_dict (sub tests_status "PASS_TO_PASS" (JObj [])).

(** A list of test identifiers. *)
Definition test_ids (ids : list string) : json := JArr (map JStr ids).

(** The flag [True]. *)
Definition is_true_flag (v : json) : bool :=
  match v with JBool true => true | _ => false end.

(** A file result that counts as successful: the pipeline reports success
    and the nested status is [success]. *)
Definition successful (file_result : json) : bool :=
  is_true_flag (field file_result "success")
  && eq_str "success" (field (field file_result "validation_result") "status").

(** The outcomes of COMPARE. *)
Definition report_not_found (error : string) : json :=
  JObj [("status", JStr "report_not_found"); ("error", JStr error)].

Definition read_error (error : string) : json :=
  JObj [("status", JStr "read_error"); ("error", JStr error)].

Section Runs.

Variable json_loads : string -> Result json.
Variable harness :
  gmap string node -> list string
  -> Validator.docker_outcome * gmap string node.
Variable data_points_dir : string.

(** The data point has a text for instance id and its two test lists
    decode to [expected_fail_to_pass] and [expected_pass_to_pass]. *)
Definition expects (data_point : json) (instance_id : string)
  (expected_fail_to_pass expected_pass_to_pass : json) : Prop :=
  getitem data_point "instance_id" = Ok (JStr instance_id) /\
  (let* raw := getitem data_point "FAIL_TO_PASS" in
   Validator.loads_value json_loads raw) = Ok expected_fail_to_pass /\
  (let* raw := getitem data_point "PASS_TO_PASS" in
   Validator.loads_value json_loads raw) = Ok expected_pass_to_pass.


(** The state the batch is in once the files [file_names] are done. *)
Fixpoint state_after (st : state) (file_names : list string) : state :=
  match file_names with
  | [] => st
  | file_name :: rest =>
      state_after
        (snd (Validator._validate_single_file json_loads harness
                data_points_dir st file_name))
        rest
  end.

(** The file results of a batch, in the order of the files. *)
Fixpoint file_trace (st : state) (file_names : list string) : list json :=
  match file_names with
  | [] => []
  | file_name :: rest =>
      let r := Validator._validate_single_file json_loads harness
                 data_points_dir st file_name in
      fst r :: file_trace (snd r) rest
  end.

(** The files a batch call works on: the given names, or the stems of
    the record files of the directory, none when the directory cannot be
    looked up. *)
Definition targets (st : state) (file_names : option (list string))
  : list string :=
  match file_names with
  | None =>
      match glob st data_points_dir with
      | Ok json_files => map (stem data_points_dir) json_files
      | Raise _ => []
      end
  | Some names => names
  end.

End Runs.


(** A file result that counts as failed: every other one. *)
Definition failed (file_result : json) : bool := negb (successful file_result).

End Shape.

(** ** The command line: [main] *)

Module Cli.

Import Validator.

Section Main.

Variable json_loads : string -> Result json.
Variable harness :
  gmap string node -> list string -> docker_outcome * gmap string node.

(** The exit status [main] chooses for the results:
    [1] on a top-level error, [0] when the success rate is [100.0],
    [1] otherwise. *)
Definition exit_code (results : batch_result) : Z :=
  match results with
  | BatchError _ => 1
  | BatchOk r => if Qeq_bool (success_rate r) 100 then 0 else 1
  end.

(** [main] without the parsing of the arguments and the printing:
    [data_points_dir] is [--data-points-dir], [instance_ids] is
    [--instance-ids], absent or a list of names. *)
Definition main (st : state) (data_points_dir : string)
  (instance_ids : option (list string)) : Z * state :=
  let '(results, st') :=
    validate_data_points json_loads harness data_points_dir st instance_ids in
  (exit_code results, st').

End Main.

End Cli.

(** ** More vocabulary *)

Module Terms.

Import Shape.

(** The path the loader gives a file name: [.json] appended when the name
    does not end with it. *)
Definition file_path_of (data_points_dir file_name : string) : string :=
  path_join data_points_dir
    (if ends_with file_name ".json" then file_name
     else file_name ++ ".json").

(** A record the loader keeps: a dict with the six fields, whose patch is
    a text that is not blank, and with a true value under one of the two
    test list keys. *)
Definition valid_record (data_point : json) : bool :=
  match data_point with
  | JObj kvs =>
      forallb (has_field kvs) DataLoader.required_fields
      && match assoc "patch" kvs with
         | Some (JStr p) => negb (String.eqb (strip p) "")
         | _ => false
         end
      && (truthy (field data_point "FAIL_TO_PASS")
          || truthy (field data_point "PASS_TO_PASS"))
  | _ => false
  end.

Section Named.

Variable json_loads : string -> Result json.

(** What the loader makes of one file name: the record of the file it
    names, when the file is there and the record parses and is valid. *)
Definition load_named (st : state) (data_points_dir file_name : string)
  : option json :=
  let p := file_path_of data_points_dir file_name in
  match exists_ st p with
  | Ok true => DataLoader._load_single_data_point json_loads st p
  | _ => None
  end.

End Named.

(** A computation returns. *)
Definition returns {A : Type} (r : Result A) : bool :=
  match r with Ok _ => true | Raise _ => false end.

(** The existence tests the loader makes for a call all return: that of
    the directory and, when the directory is there and names are given,
    that of the file of each name. *)
Definition lookups_return (st : state) (data_points_dir : string)
  (file_names : option (list string)) : bool :=
  match exists_ st data_points_dir with
  | Raise _ => false
  | Ok false => true
  | Ok true =>
      match file_names with
      | None => true
      | Some names =>
          forallb (fun n => returns (exists_ st (file_path_of data_points_dir n)))
                  names
      end
  end.


(** The path can be written: it names a file, or it names nothing and the
    directory it would be made in is there. *)
Definition writable (st : state) (p : string) : bool :=
  match fs st !! p with
  | Some (File _) => true
  | Some _ => false
  | None =>
      match parent p with
      | None | Some EmptyString => true
      | Some d => match fs st !! d with Some Dir => true | _ => false end
      end
  end.

(** The statuses COMPARE can give. *)
Definition statuses : list string :=
  ["success"; "test_mismatch"; "report_not_found"; "read_error"].

(** The predictions file of a target. *)
Definition predictions_path (file_name : string) : string :=
  "predictions_" ++ file_name ++ ".jsonl".

Section Pipeline.

Variable json_loads : string -> Result json.
Variable data_points_dir : string.

(** The data point the pipeline of a target works on, if any. *)
Definition loaded (st : state) (file_name : string) : option json :=
  match exists_ st data_points_dir with
  | Ok true => load_named json_loads st data_points_dir file_name
  | _ => None
  end.

(** The file system handed to the harness for a target whose data point
    is [dp]: the one before, with the predictions file written. *)
Definition fs_for_harness (st : state) (file_name : string) (dp : json)
  : gmap string node :=
  <[predictions_path file_name :=
      File (Formatter.jsonl [prediction_of "gpt-4" dp])]> (fs st).

(** The pipeline of a target gets as far as the harness: the target
    loads, its instance id is a true value and the predictions file can be
    written. *)
Definition reaches_execute (st : state) (file_name : string) : bool :=
  match loaded st file_name with
  | Some dp =>
      truthy (field dp "instance_id")
      && writable st (predictions_path file_name)
  | None => false
  end.

End Pipeline.

Section Batch.

Variable json_loads : string -> Result json.
Variable harness :
  gmap string node -> list string
  -> Validator.docker_outcome * gmap string node.
Variable data_points_dir : string.


End Batch.

End Terms.

(** * Properties *)

(** ** Files *)

Module OSFacts.

(** A write succeeds exactly on a path that can be written, and then
    changes that path only. *)
Lemma write_text_spec (st : state) (p content : string) :
  if Terms.writable st p
  then write_text st p content
       = Ok (State (<[p := File content]> (fs st)) (harness_calls st))
  else exists e, write_text st p content = Raise e.
Proof.
  unfold Terms.writable, write_text, parent_check.
  destruct (fs st !! p) as [[| | |]|]; eauto.
  destruct (parent p) as [[|a d]|]; eauto.
  destruct (fs st !! String a d) as [[| | |]|]; simpl; eauto.
Qed.

Lemma save_spec (st : state) (predictions : list json) (p : string) :
  Formatter.save_predictions_to_file st predictions p
  = if Terms.writable st p
    then (true, State (<[p := File (Formatter.jsonl predictions)]> (fs st))
                  (harness_calls st))
    else (false, st).
Proof.
  unfold Formatter.save_predictions_to_file.
  pose proof (write_text_spec st p (Formatter.jsonl predictions)) as H.
  destruct (Terms.writable st p); [now rewrite H|].
  destruct H as [e ->]. reflexivity.
Qed.

Lemma read_written (f : gmap string node) (calls : list (string * string))
  (p content : string) :
  read_text (State (<[p := File content]> f) calls) p = Ok content.
Proof. unfold read_text. simpl. now rewrite lookup_insert_eq. Qed.

(** The listing of a directory returns when its lookup does. *)
Lemma glob_returns (st : state) (d : string) (found : bool) :
  exists_ st d = Ok found -> glob st d = Ok (glob_json st d).
Proof.
  unfold exists_, glob. destruct (fs st !! d) as [[| | |]|]; try discriminate;
    reflexivity.
Qed.

End OSFacts.

(** ** The loader *)

Module LoaderFacts.

Import DataLoader Shape.

Section Facts.

Variable json_loads : string -> Result json.

Lemma check_required_dict (fields : list string) (kvs : list (string * json)) :
  check_required fields (JObj kvs) = Ok (forallb (has_field kvs) fields).
Proof.
  induction fields as [|f fields IH]; simpl; [reflexivity|].
  unfold has_field at 1. destruct (assoc f kvs); simpl; [exact IH|reflexivity].
Qed.

(** A record that lacks a mandatory field is not valid. *)
Lemma validate_missing_field (kvs : list (string * json)) (f : string) :
  In f required_fields -> assoc f kvs = None ->
  _validate_data_point (JObj kvs) = Ok false.
Proof.
  intros Hin Hf. unfold _validate_data_point.
  rewrite check_required_dict.
  assert (forallb (has_field kvs) required_fields = false) as ->; [|reflexivity].
  apply not_true_is_false. intros Hall.
  rewrite forallb_forall in Hall. specialize (Hall f Hin).
  unfold has_field in Hall. rewrite Hf in Hall. discriminate.
Qed.

(** A record whose patch is blank text is not valid. *)
Lemma validate_blank_patch (kvs : list (string * json)) (p : string) :
  assoc "patch" kvs = Some (JStr p) -> strip p = "" ->
  _validate_data_point (JObj kvs) = Ok false.
Proof.
  intros Hp Hs. unfold _validate_data_point.
  rewrite check_required_dict.
  destruct (forallb (has_field kvs) required_fields); [|reflexivity].
  simpl. rewrite Hp. simpl. rewrite Hs. reflexivity.
Qed.

(** A record whose two test lists are empty lists is not valid. *)
Lemma validate_empty_lists (kvs : list (string * json)) :
  assoc "FAIL_TO_PASS" kvs = Some (JArr []) ->
  assoc "PASS_TO_PASS" kvs = Some (JArr []) ->
  _validate_data_point (JObj kvs) = Ok false \/
  exists e, _validate_data_point (JObj kvs) = Raise e.
Proof.
  intros Hf Hp. unfold _validate_data_point.
  rewrite check_required_dict.
  destruct (forallb (has_field kvs) required_fields); [|left; reflexivity].
  simpl. destruct (assoc "patch" kvs) as [patch|]; simpl.
  - destruct (strip_method patch) as [s|e]; simpl; [|right; eauto].
    destruct (negb (negb (String.eqb s ""))); [left; reflexivity|].
    rewrite Hf, Hp. left. reflexivity.
  - left. reflexivity.
Qed.

Lemma validate_true_dict (dp : json) :
  _validate_data_point dp = Ok true -> exists kvs, dp = JObj kvs.
Proof.
  intros H. destruct dp; eauto; exfalso; unfold _validate_data_point in H.
  1-3: discriminate H.
  all: destruct (check_required required_fields _) as [[|]|];
    simpl in H; discriminate H.
Qed.

Lemma load_single_valid (st : state) (f : string) (dp : json) :
  _load_single_data_point json_loads st f = Some dp ->
  json_load json_loads st f = Ok dp /\ _validate_data_point dp = Ok true.
Proof.
  unfold _load_single_data_point.
  destruct (json_load json_loads st f) as [d|e]; simpl; [|discriminate].
  destruct (_validate_data_point d) as [[|]|e] eqn:Hv; simpl; try discriminate.
  intros [= <-]. split; [reflexivity|exact Hv].
Qed.

Lemma load_files_total (st : state) (files : list string) :
  exists l, load_files json_loads st files = Ok l /\
            Forall (fun dp => _validate_data_point dp = Ok true) l.
Proof.
  induction files as [|f files [l [IH HF]]]; simpl; [eauto|].
  destruct (_load_single_data_point json_loads st f) as [dp|] eqn:E; [|eauto].
  apply load_single_valid in E as [_ Hv].
  destruct (validate_true_dict _ Hv) as [kvs ->].
  destruct (truthy (JObj kvs)); [|eauto].
  simpl. rewrite IH. simpl. eauto.
Qed.

Lemma resolve_path (dir n : string) :
  path_join dir (if negb (ends_with n ".json") then n ++ ".json" else n)
  = Terms.file_path_of dir n.
Proof. unfold Terms.file_path_of. destruct (ends_with n ".json"); reflexivity. Qed.

(** The name resolution returns when every existence test does, and
    otherwise raises what the first failing test raises. *)
Lemma resolve_returns (st : state) (dir : string) (names : list string) :
  if forallb (fun n => Terms.returns (exists_ st (Terms.file_path_of dir n))) names
  then exists files, resolve_files st dir names = Ok files
  else exists e n, resolve_files st dir names = Raise e /\ In n names /\
                   exists_ st (Terms.file_path_of dir n) = Raise e.
Proof.
  induction names as [|n names IH]; cbn [forallb resolve_files]; [eauto|].
  rewrite resolve_path.
  destruct (exists_ st (Terms.file_path_of dir n)) as [found|e] eqn:E;
    cbn [Terms.returns andb bind].
  - destruct (forallb _ names).
    + destruct IH as [files ->]. simpl. eauto.
    + destruct IH as [e [m [-> [Hin He]]]]. simpl.
      exists e, m. repeat split; [now right|exact He].
  - exists e, n. repeat split; [now left|exact E].
Qed.

(** Whenever the loader returns, it returns valid records only. *)
Lemma load_valid (st : state) (dir : string) (names : option (list string))
  (l : list json) :
  load_data_points_by_files json_loads st dir names = Ok l ->
  Forall (fun dp => _validate_data_point dp = Ok true) l.
Proof.
  unfold load_data_points_by_files.
  destruct (exists_ st dir) as [[|]|e] eqn:E; simpl;
    [|intros [= <-]; constructor|discriminate].
  rewrite (OSFacts.glob_returns _ _ _ E).
  assert (forall files,
            match files with [] => Ok [] | _ => load_files json_loads st files end
            = Ok l ->
            Forall (fun dp => _validate_data_point dp = Ok true) l) as Hfiles.
  { intros files H. destruct (load_files_total st files) as [l' [Hl HF]].
    destruct files; [injection H as <-; constructor|].
    rewrite Hl in H. injection H as <-. exact HF. }
  destruct names as [names|]; simpl.
  - destruct (resolve_files st dir names) as [files|e]; simpl; [|discriminate].
    apply Hfiles.
  - apply Hfiles.
Qed.

(** The loader returns exactly when its existence tests return. *)
Lemma load_returns (st : state) (dir : string) (names : option (list string)) :
  if Terms.lookups_return st dir names
  then exists l, load_data_points_by_files json_loads st dir names = Ok l
  else exists e p, load_data_points_by_files json_loads st dir names = Raise e /\
                   exists_ st p = Raise e.
Proof.
  unfold Terms.lookups_return, load_data_points_by_files.
  destruct (exists_ st dir) as [[|]|e] eqn:E; simpl; [| eauto | eauto].
  destruct names as [names|]; simpl.
  - pose proof (resolve_returns st dir names) as H.
    destruct (forallb _ names).
    + destruct H as [files ->]. simpl.
      destruct (load_files_total st files) as [l [Hl _]].
      destruct files; [eauto|]. rewrite Hl. eauto.
    + destruct H as [e [n [-> [_ He]]]]. simpl. eauto.
  - rewrite (OSFacts.glob_returns _ _ _ E). simpl.
    destruct (load_files_total st (glob_json st dir)) as [l [Hl _]].
    destruct (glob_json st dir); [eauto|]. rewrite Hl. eauto.
Qed.

(** C9, amended: the batch call of the loader is total over the contents
    of the files, and raises exactly when one of its existence tests does.
    When the tests return, [load_data_points_by_files] returns a list, and
    a list of valid records only; when one raises, its error leaves the
    call.  A file whose reading or parsing raises, and a file whose
    validation raises, is dropped by [_load_single_data_point]; and a record
    with all six fields whose patch is not text makes the validation itself
    raise, an [AttributeError] for the missing [strip]. *)
Theorem loader_raises_only_on_lookup (st : state) (dir : string)
  (names : option (list string)) :
  (Terms.lookups_return st dir names = true ->
   exists l, load_data_points_by_files json_loads st dir names = Ok l /\
             Forall (fun dp => _validate_data_point dp = Ok true) l) /\
  (Terms.lookups_return st dir names = false ->
   exists e p, load_data_points_by_files json_loads st dir names = Raise e /\
               exists_ st p = Raise e) /\
  (forall file,
      (exists e, json_load json_loads st file = Raise e) \/
      (exists dp e, json_load json_loads st file = Ok dp /\
                    _validate_data_point dp = Raise e) ->
      _load_single_data_point json_loads st file = None) /\
  (forall kvs patch,
      forallb (has_field kvs) required_fields = true ->
      assoc "patch" kvs = Some patch ->
      (forall s, patch <> JStr s) ->
      _validate_data_point (JObj kvs) = Raise (no_attribute patch "strip")).
Proof.
  pose proof (load_returns st dir names) as Hret.
  split; [|split; [|split]].
  - intros H. rewrite H in Hret. destruct Hret as [l Hl].
    exists l. split; [exact Hl|]. exact (load_valid _ _ _ _ Hl).
  - intros H. rewrite H in Hret. exact Hret.
  - intros file [[e He]|[dp [e [Hd He]]]]; unfold _load_single_data_point.
    + rewrite He. reflexivity.
    + rewrite Hd. simpl. rewrite He. reflexivity.
  - intros kvs patch Hall Hp Hns. unfold _validate_data_point.
    rewrite check_required_dict, Hall. simpl. rewrite Hp. simpl.
    destruct patch; try reflexivity. now destruct (Hns s).
Qed.

End Facts.

Import Scenario.

(** C9, as stated, fails: with one record file whose name is longer than
    the file system allows, so that its lookup raises, the loader called
    with the names [foo] and that long name raises the error of the lookup.
    The existence test of a named file is made outside every [try]. *)
Theorem long_name_raises :
  load_data_points_by_files JsonText.json_loads long_name_world
    "data_points" (Some ["foo"; long_name])
  = Raise name_too_long.
Proof. vm_compute. reflexivity. Qed.

(** The amended C9 at the files of the scenarios: a batch of three names
    returns, the record [plist.json], whose patch is a list, is dropped,
    and with the long name among the names the call raises. *)
Lemma loader_raises_only_on_lookup_witness :
  (exists l, load_data_points_by_files JsonText.json_loads world "data_points"
               (Some ["foo"; "plist"; "nothere"]) = Ok l /\
             Forall (fun dp => _validate_data_point dp = Ok true) l) /\
  (exists e p,
     load_data_points_by_files JsonText.json_loads long_name_world
       "data_points" (Some ["foo"; long_name]) = Raise e /\
     exists_ long_name_world p = Raise e) /\
  _load_single_data_point JsonText.json_loads world "data_points/plist.json"
  = None /\
  _validate_data_point patch_list
  = Raise (no_attribute (JArr [JStr "diff"]) "strip").
Proof.
  pose proof (loader_raises_only_on_lookup JsonText.json_loads world
                "data_points" (Some ["foo"; "plist"; "nothere"]))
    as [Hret [_ [Hdrop Hraise]]].
  split; [|split; [|split]].
  - apply Hret. vm_compute. reflexivity.
  - apply (proj1 (proj2 (loader_raises_only_on_lookup JsonText.json_loads
                           long_name_world "data_points"
                           (Some ["foo"; long_name])))).
    vm_compute. reflexivity.
  - apply Hdrop. right. exists patch_list, (no_attribute (JArr [JStr "diff"]) "strip").
    split; vm_compute; reflexivity.
  - apply Hraise; [vm_compute; reflexivity | vm_compute; reflexivity |
                   intros s; discriminate].
Defined.

(** C2: a record with a patch and all six fields whose two test lists are
    both empty, encoded as the records encode them (the text [[]]), passes
    the validation and is returned by the loader, although both lists it
    encodes are empty. *)
Theorem both_empty_is_loaded :
  _validate_data_point both_empty = Ok true /\
  load_data_points_by_files JsonText.json_loads world "data_points"
    (Some ["void"]) = Ok [both_empty] /\
  Validator.loads_value JsonText.json_loads (encoded []) = Ok (JArr []).
Proof. repeat split; vm_compute; reflexivity. Qed.

End LoaderFacts.

(** ** The formatter *)

Module FormatterFacts.
Import Formatter JsonText Shape.

Lemma app_assoc (a b c : string) : (a ++ b) ++ c = a ++ (b ++ c).
Proof.
  induction a as [|x a IH]; [reflexivity|].
  change (String x ((a ++ b) ++ c) = String x (a ++ (b ++ c))).
  f_equal. exact IH.
Qed.

Lemma app_cons (x : ascii) (a b : string) : String x a ++ b = String x (a ++ b).
Proof. reflexivity. Qed.

Lemma app_nil_l (a : string) : "" ++ a = a.
Proof. reflexivity. Qed.

Section Facts.
Variable model_name : string.

Lemma convert_single_dict (dp : json) :
  is_dict dp = true ->
  _convert_single_data_point model_name dp
  = Ok (if convertible dp then Some (prediction_of model_name dp) else None).
Proof.
  destruct dp; try discriminate. intros _.
  unfold _convert_single_data_point, convertible, prediction_of, field. simpl.
  destruct (assoc "instance_id" kvs) as [i|], (assoc "patch" kvs) as [p|]; simpl;
    try reflexivity.
  - destruct (truthy i), (truthy p); reflexivity.
  - destruct (truthy i); reflexivity.
Qed.

Lemma convert_dicts (dps : list json) :
  Forall (fun dp => is_dict dp = true) dps ->
  convert_to_predictions model_name dps
  = Ok (map (prediction_of model_name) (List.filter convertible dps)).
Proof.
  induction 1 as [|dp dps Hd _ IH]; [reflexivity|].
  simpl. rewrite (convert_single_dict _ Hd). simpl.
  destruct (convertible dp); simpl.
  - rewrite IH. reflexivity.
  - destruct dp; try discriminate. simpl. exact IH.
Qed.

End Facts.

(** *** Reading back what [json.dumps] wrote *)

Lemma parse_str_escape_char (a : ascii) (rest : string) :
  parse_str (escape_char a ++ rest) = cons_char a (parse_str rest).
Proof.
  destruct a as [[|] [|] [|] [|] [|] [|] [|] [|]]; reflexivity.
Qed.

Lemma parse_str_escape (s rest : string) :
  parse_str (escape s ++ String dquote rest) = Some (s, rest).
Proof.
  induction s as [|a s IH]; [reflexivity|].
  change (escape (String a s)) with (escape_char a ++ escape s).
  rewrite app_assoc, parse_str_escape_char, IH. reflexivity.
Qed.

Lemma encode_string_app (s rest : string) :
  encode_string s ++ rest = String dquote (escape s ++ String dquote rest).
Proof. unfold encode_string. rewrite app_assoc. reflexivity. Qed.

(** A string literal is read back as the string. *)
Lemma parse_string_value (fuel : nat) (s rest : string) :
  parse (S fuel) MValue (encode_string s ++ rest) = Some (JStr s, rest).
Proof.
  rewrite encode_string_app.
  change (parse (S fuel) MValue (String dquote (escape s ++ String dquote rest)))
    with (match parse_str (escape s ++ String dquote rest) with
          | Some (str, r) => Some (JStr str, r)
          | None => None
          end).
  rewrite parse_str_escape. reflexivity.
Qed.

(** One member [key: value] with a text value, followed by [next]. *)
Lemma parse_member (fuel : nat) (acc : list (string * json))
  (k v next : string) :
  parse (S (S fuel)) (MMembers acc)
        (encode_string k ++ ": " ++ encode_string v ++ next)
  = match skip_ws next with
    | String b t =>
        if Ascii.eqb b ","
        then parse (S fuel) (MMembers (dict_set acc k (JStr v))) t
        else if Ascii.eqb b "}"
        then Some (JObj (dict_set acc k (JStr v)), t)
        else None
    | EmptyString => None
    end.
Proof.
  rewrite encode_string_app.
  change (parse (S (S fuel)) (MMembers acc) ?s)
    with (match parse_str (escape k ++ String dquote (": " ++ encode_string v ++ next)) with
          | Some (k', rest) =>
              match skip_ws rest with
              | String c t' =>
                  if Ascii.eqb c ":" then
                    match parse (S fuel) MValue t' with
                    | Some (v', rest') =>
                        match skip_ws rest' with
                        | String b t'' =>
                            if Ascii.eqb b ","
                            then parse (S fuel) (MMembers (dict_set acc k' v')) t''
                            else if Ascii.eqb b "}"
                            then Some (JObj (dict_set acc k' v'), t'')
                            else None
                        | EmptyString => None
                        end
                    | None => None
                    end
                  else None
              | EmptyString => None
              end
          | None => None
          end).
  rewrite parse_str_escape.
  change (skip_ws (": " ++ encode_string v ++ next))
    with (String ":" (String " " (encode_string v ++ next))).
  change (Ascii.eqb ":" ":") with true. cbv iota.
  assert (parse (S fuel) MValue (String " " (encode_string v ++ next))
          = parse (S fuel) MValue (encode_string v ++ next)) as -> by reflexivity.
  rewrite parse_string_value. reflexivity.
Qed.

Lemma dumps_text_prediction (i m p : string) :
  json_dumps (text_prediction i m p)
  = String "{" (encode_string "instance_id" ++ ": " ++ encode_string i ++
      ", " ++ encode_string "model_name_or_path" ++ ": " ++ encode_string m ++
      ", " ++ encode_string "model_patch" ++ ": " ++ encode_string p ++ "}").
Proof.
  change (json_dumps (text_prediction i m p))
    with ("{" ++ (encode_string "instance_id" ++ ": " ++ encode_string i ++
      ", " ++ encode_string "model_name_or_path" ++ ": " ++ encode_string m ++
      ", " ++ encode_string "model_patch" ++ ": " ++ encode_string p ++ "")
      ++ "}").
  rewrite !app_assoc. reflexivity.
Qed.

Lemma parse_text_prediction (fuel : nat) (i m p : string) :
  parse (5 + fuel) MValue (json_dumps (text_prediction i m p))
  = Some (text_prediction i m p, "").
Proof.
  rewrite dumps_text_prediction.
  set (rest := ": " ++ encode_string i ++ _).
  change (5 + fuel) with (S (S (S (S (S fuel))))).
  assert (parse (S (S (S (S (S fuel))))) MValue
            (String "{" (encode_string "instance_id" ++ rest))
          = parse (S (S (S (S fuel)))) (MMembers [])
              (encode_string "instance_id" ++ rest)) as -> by reflexivity.
  subst rest. rewrite parse_member.
  set (rest := ": " ++ encode_string m ++ _).
  assert (forall acc,
            parse (S (S (S fuel))) (MMembers acc)
              (String " " (encode_string "model_name_or_path" ++ rest))
            = parse (S (S (S fuel))) (MMembers acc)
                (encode_string "model_name_or_path" ++ rest)) as E
      by reflexivity.
  change (skip_ws (", " ++ encode_string "model_name_or_path" ++ rest))
    with (String "," (String " " (encode_string "model_name_or_path" ++ rest))).
  change (Ascii.eqb "," ",") with true. cbv iota.
  rewrite E. clear E. subst rest. rewrite parse_member.
  set (rest := ": " ++ encode_string p ++ _).
  assert (forall acc,
            parse (S (S fuel)) (MMembers acc)
              (String " " (encode_string "model_patch" ++ rest))
            = parse (S (S fuel)) (MMembers acc)
                (encode_string "model_patch" ++ rest)) as E
      by reflexivity.
  change (skip_ws (", " ++ encode_string "model_patch" ++ rest))
    with (String "," (String " " (encode_string "model_patch" ++ rest))).
  change (Ascii.eqb "," ",") with true. cbv iota.
  rewrite E. clear E. subst rest. rewrite parse_member.
  reflexivity.
Qed.

Lemma loads_text_prediction (i m p : string) :
  json_loads (json_dumps (text_prediction i m p)) = Ok (text_prediction i m p).
Proof.
  unfold json_loads.
  assert (exists k, 2 * String.length (json_dumps (text_prediction i m p)) + 2
                    = 5 + k) as [k ->].
  { rewrite dumps_text_prediction, encode_string_app.
    set (t := _ ++ _).
    change (String.length (String "{" (String dquote t)))
      with (S (S (String.length t))).
    exists (2 * String.length t + 1). lia. }
  rewrite parse_text_prediction. reflexivity.
Qed.

(** *** Lines *)

Lemma one_line_app (a b : string) :
  one_line (a ++ b) = one_line a && one_line b.
Proof.
  induction a as [|x a IH]; [reflexivity|].
  change (one_line (String x a ++ b))
    with (negb (Nat.eqb (nat_of_ascii x) 10)
          && negb (Nat.eqb (nat_of_ascii x) 13) && one_line (a ++ b)).
  rewrite IH. simpl. now rewrite andb_assoc.
Qed.

Lemma one_line_escape_char (a : ascii) : one_line (escape_char a) = true.
Proof.
  destruct a as [[|] [|] [|] [|] [|] [|] [|] [|]]; reflexivity.
Qed.

Lemma one_line_escape (s : string) : one_line (escape s) = true.
Proof.
  induction s as [|a s IH]; [reflexivity|].
  change (escape (String a s)) with (escape_char a ++ escape s).
  now rewrite one_line_app, one_line_escape_char, IH.
Qed.

Lemma one_line_encode (s : string) : one_line (encode_string s) = true.
Proof.
  unfold encode_string.
  change (String dquote (escape s) ++ String dquote "")
    with (String dquote (escape s ++ String dquote "")).
  change (one_line (String dquote ?t)) with (one_line t).
  now rewrite one_line_app, one_line_escape.
Qed.

Lemma one_line_text_prediction (i m p : string) :
  one_line (json_dumps (text_prediction i m p)) = true.
Proof.
  rewrite dumps_text_prediction.
  change (one_line (String "{" ?t)) with (one_line t).
  rewrite !one_line_app, !one_line_encode. reflexivity.
Qed.

Lemma universal_newlines_line (s rest : string) :
  one_line s = true ->
  universal_newlines (s ++ newline ++ rest)
  = s ++ newline ++ universal_newlines rest.
Proof.
  induction s as [|a s IH]; intros H.
  - reflexivity.
  - simpl in H. apply andb_prop in H as [H Hs]. apply andb_prop in H as [_ H13].
    change (String a s ++ newline ++ rest)
      with (String a (s ++ newline ++ rest)).
    change (String a s ++ newline ++ universal_newlines rest)
      with (String a (s ++ newline ++ universal_newlines rest)).
    rewrite <- (IH Hs). simpl.
    destruct (Nat.eqb (nat_of_ascii a) 13); [discriminate|reflexivity].
Qed.

Lemma split_lines_line (s rest : string) :
  one_line s = true ->
  split_lines (s ++ newline ++ rest) = s :: split_lines rest.
Proof.
  induction s as [|a s IH]; intros H.
  - reflexivity.
  - simpl in H. apply andb_prop in H as [H Hs]. apply andb_prop in H as [H10 _].
    change (String a s ++ newline ++ rest)
      with (String a (s ++ newline ++ rest)).
    simpl. rewrite (IH Hs).
    destruct (Nat.eqb (nat_of_ascii a) 10); [discriminate|reflexivity].
Qed.

Lemma read_lines_jsonl (predictions : list json) :
  Forall (fun p => one_line (json_dumps p) = true) predictions ->
  read_lines (jsonl predictions) = map json_dumps predictions.
Proof.
  unfold read_lines. induction 1 as [|p ps Hp _ IH]; [reflexivity|].
  change (jsonl (p :: ps)) with (json_dumps p ++ newline ++ jsonl ps).
  rewrite (universal_newlines_line _ _ Hp), (split_lines_line _ _ Hp), IH.
  reflexivity.
Qed.

Lemma loads_all_text (predictions : list json) :
  Forall (fun p => exists i m t, p = text_prediction i m t) predictions ->
  loads_all (map json_dumps predictions) = Ok predictions.
Proof.
  induction 1 as [|p ps [i [m [t ->]]] _ IH]; [reflexivity|].
  cbn [List.map loads_all]. rewrite loads_text_prediction, IH. reflexivity.
Qed.

Lemma saved_text (st st' : state) (predictions : list json) (path : string) :
  save_predictions_to_file st predictions path = (true, st') ->
  read_text st' path = Ok (jsonl predictions).
Proof.
  rewrite OSFacts.save_spec.
  destruct (Terms.writable st path); intros [= <-].
  apply OSFacts.read_written.
Qed.

Section RoundTrip.

Variable model_name : string.

Lemma valid_prediction (dp : json) :
  valid_data_point dp = true ->
  convertible dp = true /\ is_dict dp = true /\
  exists i p, field dp "instance_id" = JStr i /\ field dp "patch" = JStr p /\
              prediction_of model_name dp = text_prediction i model_name p.
Proof.
  unfold valid_data_point, convertible, prediction_of, nonempty_text.
  intros H. apply andb_prop in H as [H Hp]. apply andb_prop in H as [Hd Hi].
  rewrite Hd.
  destruct (field dp "instance_id") as [| | |i| |]; try discriminate.
  destruct (field dp "patch") as [| | |p| |]; try discriminate.
  simpl. rewrite Hi, Hp. repeat split. exists i, p. repeat split.
Qed.

Lemma convert_valid (dps : list json) :
  Forall (fun dp => valid_data_point dp = true) dps ->
  convert_to_predictions model_name dps
  = Ok (map (prediction_of model_name) dps).
Proof.
  intros H. rewrite convert_dicts.
  - f_equal. f_equal. induction H as [|dp dps Hv _ IH]; [reflexivity|].
    simpl. destruct (valid_prediction _ Hv) as [-> _]. now rewrite IH.
  - eapply Forall_impl; [exact H|]. intros dp Hv.
    now destruct (valid_prediction _ Hv) as [_ [-> _]].
Qed.

(** C5: round trip.  Valid data points (dicts whose instance id and patch
    are non-empty texts) are all converted; once the predictions are saved,
    reading the file back line by line and parsing each line gives the
    predictions again: as many records as data points, each with the
    [model_patch] equal to the [patch] and the [instance_id] of its data
    point. *)
Theorem predictions_round_trip (data_points : list json)
  (st st' : state) (file_path : string) :
  Forall (fun dp => valid_data_point dp = true) data_points ->
  save_predictions_to_file st (map (prediction_of model_name) data_points)
    file_path = (true, st') ->
  convert_to_predictions model_name data_points
  = Ok (map (prediction_of model_name) data_points) /\
  exists records,
    read_jsonl st' file_path = Ok records /\
    length records = length data_points /\
    Forall2 (fun dp r =>
               get r "model_patch" JNull = Ok (field dp "patch") /\
               get r "instance_id" JNull = Ok (field dp "instance_id"))
            data_points records.
Proof.
  intros Hv Hs. split; [apply convert_valid, Hv|].
  exists (map (prediction_of model_name) data_points).
  split; [|split].
  - unfold read_jsonl. rewrite (saved_text _ _ _ _ Hs). simpl.
    rewrite read_lines_jsonl.
    + apply loads_all_text. apply Forall_map.
      eapply Forall_impl; [exact Hv|]. intros dp H.
      destruct (valid_prediction _ H) as [_ [_ [i [p [_ [_ ->]]]]]]. eauto.
    + apply Forall_map. eapply Forall_impl; [exact Hv|]. intros dp H.
      destruct (valid_prediction _ H) as [_ [_ [i [p [_ [_ ->]]]]]].
      apply one_line_text_prediction.
  - apply length_map.
  - clear Hs. induction Hv as [|dp dps _ _ IH]; constructor; [|exact IH].
    split; reflexivity.
Qed.

(** C10: [convert_to_predictions] keeps the order of its input.  On a list
    of dicts it returns; and whenever it returns, the result is the list of
    the predictions of the convertible entries, in the order of the input,
    each with the three keys [instance_id], [model_name_or_path] and
    [model_patch] and the model name of the formatter. *)
Theorem convert_to_predictions_order (data_points : list json) :
  (Forall (fun dp => is_dict dp = true) data_points ->
   exists predictions,
     convert_to_predictions model_name data_points = Ok predictions) /\
  (forall predictions,
     convert_to_predictions model_name data_points = Ok predictions ->
     predictions
     = map (prediction_of model_name) (List.filter convertible data_points) /\
     Forall (fun p =>
               keys p = ["instance_id"; "model_name_or_path"; "model_patch"] /\
               field p "model_name_or_path" = JStr model_name)
            predictions).
Proof.
  split.
  - intros H. rewrite (convert_dicts _ _ H). eauto.
  - assert (forall predictions,
              convert_to_predictions model_name data_points = Ok predictions ->
              predictions = map (prediction_of model_name)
                              (List.filter convertible data_points)) as Hmap.
    { induction data_points as [|dp dps IH]; intros preds H.
      - injection H as <-. reflexivity.
      - destruct dp; try discriminate H.
        simpl in H. rewrite convert_single_dict in H by reflexivity.
        simpl in H. destruct (convertible (JObj kvs)) eqn:E; simpl in H.
        + destruct (convert_to_predictions model_name dps) as [ps|e];
            [|discriminate H].
          injection H as <-. simpl. rewrite E. simpl.
          now rewrite <- (IH ps eq_refl).
        + simpl. rewrite E. apply IH. exact H. }
    intros preds H. split; [exact (Hmap _ H)|].
    rewrite (Hmap _ H). apply Forall_map, Forall_forall.
    intros dp _. split; reflexivity.
Qed.

End RoundTrip.

Import Scenario.

(** The round trip of [foo] and [crash] through [predictions.jsonl]. *)
Lemma predictions_round_trip_witness :
  exists records,
    read_jsonl
      (snd (save_predictions_to_file world
              (map (prediction_of "gpt-4") [foo; crash]) "predictions.jsonl"))
      "predictions.jsonl" = Ok records /\
    length records = 2.
Proof.
  destruct (predictions_round_trip "gpt-4" [foo; crash] world
              (snd (save_predictions_to_file world
                      (map (prediction_of "gpt-4") [foo; crash])
                      "predictions.jsonl"))
              "predictions.jsonl") as [_ [records [Hr [Hl _]]]].
  - repeat constructor.
  - vm_compute. reflexivity.
  - exists records. split; [exact Hr|exact Hl].
Defined.

(** The order theorem at a list of three dicts, the second without an
    instance id. *)
Lemma convert_to_predictions_order_witness :
  exists predictions,
    convert_to_predictions "gpt-4" [foo; anonymous; crash] = Ok predictions.
Proof.
  apply (proj1 (convert_to_predictions_order "gpt-4" [foo; anonymous; crash])).
  repeat constructor.
Defined.

End FormatterFacts.

(** ** The comparison *)

Module CompareFacts.

Import DataLoader Validator Shape.

Section Facts.

Variable json_loads : string -> Result json.

Lemma expects_prefix (st : state) (dp : json) (logs_dir iid : string)
  (eftp eptp : json) :
  expects json_loads dp iid eftp eptp ->
  _validate_single_result json_loads st dp logs_dir
  = let report_path := path_join (path_join logs_dir iid) "report.json" in
    let* found := exists_ st report_path in
    if negb found then
      Ok (report_not_found ("File " ++ report_path ++ " not found"))
    else
      match read_and_compare json_loads st (JStr iid) eftp eptp report_path with
      | Ok r => Ok r
      | Raise e => Ok (read_error (text e))
      end.
Proof.
  intros [Hi [Hf Hp]]. unfold _validate_single_result.
  rewrite Hi. simpl.
  destruct (getitem dp "FAIL_TO_PASS") as [rf|]; [|discriminate Hf].
  simpl in Hf |- *. rewrite Hf. simpl.
  destruct (getitem dp "PASS_TO_PASS") as [rp|]; [|discriminate Hp].
  simpl in Hp |- *. rewrite Hp. reflexivity.
Qed.

(** C3, amended: for a data point with a text for instance id whose two
    test lists decode, COMPARE returns [report_not_found] when the
    existence test of the report path answers that the report is absent,
    [read_error] with the text of the error when the report is there and
    reading or parsing it raises, and raises the error of the existence
    test when the test itself raises. *)
Theorem missing_or_unreadable_report (st : state) (dp : json)
  (logs_dir iid : string) (eftp eptp : json) :
  expects json_loads dp iid eftp eptp ->
  let report_path := path_join (path_join logs_dir iid) "report.json" in
  (exists_ st report_path = Ok false ->
   _validate_single_result json_loads st dp logs_dir
   = Ok (report_not_found ("File " ++ report_path ++ " not found"))) /\
  (forall e,
     exists_ st report_path = Ok true ->
     json_load json_loads st report_path = Raise e ->
     _validate_single_result json_loads st dp logs_dir
     = Ok (read_error (text e))) /\
  (forall e,
     exists_ st report_path = Raise e ->
     _validate_single_result json_loads st dp logs_dir = Raise e).
Proof.
  intros He report_path. subst report_path.
  rewrite (expects_prefix _ _ _ _ _ _ He). cbv zeta. split; [|split].
  - intros ->. reflexivity.
  - intros e -> Hl. simpl. unfold read_and_compare. rewrite Hl. reflexivity.
  - intros e ->. reflexivity.
Qed.

Lemma extract_dict (report instance_id ir aftp aptp : json) :
  extract_test_results report instance_id = Ok (ir, aftp, aptp) ->
  exists kvs, ir = JObj kvs.
Proof.
  unfold extract_test_results.
  destruct (get_value report instance_id (JObj [])) as [r|]; [|discriminate].
  simpl. destruct r; try discriminate. simpl.
  destruct (get _ "FAIL_TO_PASS" _); [|discriminate]. simpl.
  destruct (get _ "success" _); [|discriminate]. simpl.
  destruct (get _ "PASS_TO_PASS" _); [|discriminate]. simpl.
  destruct (get _ "success" _); [|discriminate]. simpl.
  intros [= <- _ _]. eauto.
Qed.

(** C1, amended: for a data point with a text for instance id whose two
    test lists decode, and a report that is there and parses: when the
    extraction of the lists or the making of the sets raises, COMPARE
    returns [read_error] with the text of the error; otherwise the status
    is [success] exactly when the two pairs of sets are equal and the
    [resolved] value is true, and [test_mismatch] in every other case. *)
Theorem compare_classification (st : state) (dp : json)
  (logs_dir iid : string) (eftp eptp report : json) :
  expects json_loads dp iid eftp eptp ->
  let report_path := path_join (path_join logs_dir iid) "report.json" in
  exists_ st report_path = Ok true ->
  json_load json_loads st report_path = Ok report ->
  (forall e,
     extract_test_results report (JStr iid) = Raise e ->
     _validate_single_result json_loads st dp logs_dir
     = Ok (read_error (text e))) /\
  (forall ir aftp aptp,
     extract_test_results report (JStr iid) = Ok (ir, aftp, aptp) ->
     (forall e,
        set_eq eftp aftp = Raise e \/
        ((exists b, set_eq eftp aftp = Ok b) /\ set_eq eptp aptp = Raise e) ->
        _validate_single_result json_loads st dp logs_dir
        = Ok (read_error (text e))) /\
     (forall sF sF' sP sP',
        set_of eftp = Ok sF -> set_of aftp = Ok sF' ->
        set_of eptp = Ok sP -> set_of aptp = Ok sP' ->
        exists r resolved,
          _validate_single_result json_loads st dp logs_dir = Ok r /\
          get ir "resolved" (JBool false) = Ok resolved /\
          (field r "status" = JStr "success" <->
           sF = sF' /\ sP = sP' /\ truthy resolved = true) /\
          (field r "status" <> JStr "success" ->
           field r "status" = JStr "test_mismatch"))).
Proof.
  intros He report_path Hex Hl. subst report_path.
  rewrite (expects_prefix _ _ _ _ _ _ He). cbv zeta. rewrite Hex. simpl. unfold read_and_compare. rewrite Hl.
  simpl. split.
  - intros e ->. reflexivity.
  - intros ir aftp aptp Hx. rewrite Hx. simpl.
    destruct (extract_dict _ _ _ _ _ Hx) as [kvs ->]. split.
    + intros e [-> | [[b ->] ->]]; reflexivity.
    + intros sF sF' sP sP' H1 H2 H3 H4. unfold set_eq.
      rewrite H1, H2, H3, H4. simpl.
      eexists _, _. split; [reflexivity|]. split; [reflexivity|].
      set (res := match assoc "resolved" kvs with
                  | Some v => v | None => JBool false end).
      destruct (bool_decide (sF = sF')) eqn:EF;
        destruct (bool_decide (sP = sP')) eqn:EP;
        destruct (truthy res) eqn:ER; simpl;
        try apply bool_decide_eq_true in EF;
        try apply bool_decide_eq_true in EP;
        try apply bool_decide_eq_false in EF;
        try apply bool_decide_eq_false in EP;
        (split; [split; [intros H; try discriminate H; tauto
                        | intros [? [? ?]]; try reflexivity;
                          try contradiction; try discriminate]
                | intros H; try reflexivity; now destruct H]).
Qed.


Lemma hash_all_ids (ids : list string) :
  hash_all (map JStr ids) = Ok (map HStr ids).
Proof.
  induction ids as [|t ids IH]; [reflexivity|].
  simpl. rewrite IH. reflexivity.
Qed.

Lemma set_of_test_ids (ids : list string) :
  set_of (test_ids ids) = Ok (list_to_set (map HStr ids)).
Proof. unfold test_ids. simpl. rewrite hash_all_ids. reflexivity. Qed.

Lemma elem_of_ids (ids : list string) (h : hkey) :
  h ∈ (list_to_set (map HStr ids) : gset hkey) <->
  exists t, h = HStr t /\ In t ids.
Proof.
  induction ids as [|x ids IH]; simpl.
  - rewrite elem_of_empty. split; [tauto|]. intros [t [_ []]].
  - rewrite elem_of_union, elem_of_singleton, IH. split.
    + intros [-> | [t [-> Ht]]]; eauto.
    + intros [t [-> [-> | Ht]]]; eauto.
Qed.

(** Equality of the sets made of two lists of identifiers is equality of
    membership: neither the order nor the repetitions count. *)
Lemma ids_set_eq (l1 l2 : list string) :
  (list_to_set (map HStr l1) : gset hkey) = list_to_set (map HStr l2) <->
  forall t, In t l1 <-> In t l2.
Proof.
  split.
  - intros H t. split; intros Ht.
    + assert (HStr t ∈ (list_to_set (map HStr l2) : gset hkey)) as Hin.
      { rewrite <- H. apply elem_of_ids. eauto. }
      apply elem_of_ids in Hin as [t' [[= ->] Ht']]. exact Ht'.
    + assert (HStr t ∈ (list_to_set (map HStr l1) : gset hkey)) as Hin.
      { rewrite H. apply elem_of_ids. eauto. }
      apply elem_of_ids in Hin as [t' [[= ->] Ht']]. exact Ht'.
  - intros H. apply leibniz_equiv. intros h. rewrite !elem_of_ids.
    split; intros [t [-> Ht]]; exists t; (split; [reflexivity|]); apply H, Ht.
Qed.

Lemma extract_shape (report : json) (iid : string) :
  report_shape report iid = true ->
  extract_test_results report (JStr iid)
  = Ok (sub report iid (JObj []),
        success_list report iid "FAIL_TO_PASS",
        success_list report iid "PASS_TO_PASS").
Proof.
  unfold report_shape, success_list, extract_test_results. intros H.
  apply andb_prop in H as [H H5]. apply andb_prop in H as [H H4].
  apply andb_prop in H as [H H3]. apply andb_prop in H as [H1 H2].
  destruct report as [| | | | |rk]; try discriminate H1.
  unfold get_value, get at 1. simpl sub in *.
  destruct (match assoc iid rk with Some v => v | None => JObj [] end)
    as [| | | | |ik]; try discriminate H2.
  simpl in *.
  destruct (match assoc "tests_status" ik with Some v => v | None => JObj [] end)
    as [| | | | |tk]; try discriminate H3.
  simpl in *.
  destruct (match assoc "FAIL_TO_PASS" tk with Some v => v | None => JObj [] end)
    as [| | | | |fk]; try discriminate H4.
  destruct (match assoc "PASS_TO_PASS" tk with Some v => v | None => JObj [] end)
    as [| | | | |pk]; try discriminate H5.
  reflexivity.
Qed.



End Facts.

Import Scenario.

(** C3, as stated, fails: the report of [raw] is absent, and COMPARE raises
    instead of returning [report_not_found], because the [FAIL_TO_PASS]
    field of the data point is a list and not its encoding. *)
Lemma absent_report_raises :
  exists_ world (report_path "raw" "raw") = Ok false /\
  _validate_single_result JsonText.json_loads world raw_list (logs_dir "raw")
  = Raise (Exn TypeError
               "the JSON object must be str, bytes or bytearray, not list").
Proof. split; vm_compute; reflexivity. Qed.

(** The amended C3 at [foo]: no report, then a report that does not
    parse; and at a record whose instance id is too long for a file name,
    where the existence test raises. *)
Lemma missing_or_unreadable_report_witness :
  _validate_single_result JsonText.json_loads world foo (logs_dir "foo")
  = Ok (report_not_found
          "File logs/run_evaluation/foo/gpt-4/foo/report.json not found") /\
  _validate_single_result JsonText.json_loads (with_report (File "{")) foo
    (logs_dir "foo")
  = Ok (read_error "Expecting value") /\
  _validate_single_result JsonText.json_loads long_id_world long_id
    (logs_dir "long")
  = Raise long_id_error.
Proof.
  split; [|split].
  - apply (proj1 (missing_or_unreadable_report JsonText.json_loads world foo
                    (logs_dir "foo") "foo" (test_ids ["t1"]) (test_ids [])
                    ltac:(repeat split; vm_compute; reflexivity))).
    vm_compute. reflexivity.
  - apply (proj1 (proj2 (missing_or_unreadable_report JsonText.json_loads
                    (with_report (File "{")) foo
                    (logs_dir "foo") "foo" (test_ids ["t1"]) (test_ids [])
                    ltac:(repeat split; vm_compute; reflexivity)))
                 JsonText.decode_error).
    + vm_compute. reflexivity.
    + vm_compute. reflexivity.
  - apply (proj2 (proj2 (missing_or_unreadable_report JsonText.json_loads
                    long_id_world long_id
                    (logs_dir "long") long_name (test_ids ["t1"]) (test_ids [])
                    ltac:(repeat split; vm_compute; reflexivity)))
                 long_id_error).
    vm_compute. reflexivity.
Defined.

(** C1, as stated, fails: the report of [foo] is there and parses, to a
    list, and COMPARE returns [read_error], neither [success] nor
    [test_mismatch]. *)
Lemma parsed_report_read_error :
  exists_ (with_report (File "[]")) (report_path "foo" "foo") = Ok true /\
  json_load JsonText.json_loads (with_report (File "[]"))
    (report_path "foo" "foo") = Ok (JArr []) /\
  _validate_single_result JsonText.json_loads (with_report (File "[]")) foo
    (logs_dir "foo")
  = Ok (read_error "'list' object has no attribute 'get'").
Proof. repeat split; vm_compute; reflexivity. Qed.

(** The amended C1 at [foo] and the report of the scenarios: the status is
    [success]. *)
Lemma compare_classification_witness :
  exists r,
    _validate_single_result JsonText.json_loads
      (with_report
         (File (Formatter.json_dumps (report "foo" (JBool true) ["t1"] []))))
      foo (logs_dir "foo") = Ok r /\
    field r "status" = JStr "success".
Proof.
  pose proof (compare_classification JsonText.json_loads
                (with_report
                   (File (Formatter.json_dumps
                            (report "foo" (JBool true) ["t1"] []))))
                foo (logs_dir "foo") "foo" (test_ids ["t1"]) (test_ids [])
                (report "foo" (JBool true) ["t1"] [])
                ltac:(repeat split; vm_compute; reflexivity)
                ltac:(vm_compute; reflexivity)
                ltac:(vm_compute; reflexivity)) as [_ H].
  destruct (H (sub (report "foo" (JBool true) ["t1"] []) "foo" (JObj []))
              (test_ids ["t1"]) (test_ids []) eq_refl) as [_ H'].
  destruct (H' (list_to_set [HStr "t1"]) (list_to_set [HStr "t1"])
               (list_to_set []) (list_to_set [])
               eq_refl eq_refl eq_refl eq_refl)
    as [r [resolved [Hr [Hres [Hiff _]]]]].
  exists r. split; [exact Hr|].
  apply Hiff. injection Hres as <-. repeat split.
Defined.


End CompareFacts.

(** ** The pipeline and the batch *)

Module BatchFacts.

Import DataLoader Formatter Validator Shape.

Section Facts.

Variable json_loads : string -> Result json.
Variable harness :
  gmap string node -> list string -> docker_outcome * gmap string node.
Variable data_points_dir : string.

#[local] Abbreviation validate_file := (_validate_single_file json_loads harness data_points_dir).
#[local] Abbreviation load := (load_data_points_by_files json_loads).

Lemma validate_true_fields (dp : json) :
  _validate_data_point dp = Ok true ->
  exists kvs, dp = JObj kvs /\
              forallb (has_field kvs) required_fields = true.
Proof.
  intros H. destruct (LoaderFacts.validate_true_dict _ H) as [kvs ->].
  exists kvs. split; [reflexivity|].
  unfold _validate_data_point in H.
  rewrite LoaderFacts.check_required_dict in H.
  destruct (forallb (has_field kvs) required_fields); [reflexivity|].
  discriminate H.
Qed.


Lemma read_and_compare_shape (st : state) (iid eftp eptp : json)
  (path : string) (r : json) :
  read_and_compare json_loads st iid eftp eptp path = Ok r ->
  exists status rest, r = JObj (("status", JStr status) :: rest).
Proof.
  unfold read_and_compare.
  destruct (json_load json_loads st path); [|discriminate]. simpl.
  destruct (extract_test_results _ _) as [[[ir af] ap]|]; [|discriminate].
  simpl.
  destruct (set_eq eftp af); [|discriminate]. simpl.
  destruct (set_eq eptp ap); [|discriminate]. simpl.
  destruct (get ir "resolved" _); [|discriminate]. simpl.
  intros [= <-]. eauto.
Qed.

Lemma compare_shape (st : state) (dp : json) (logs_dir : string) (r : json) :
  _validate_single_result json_loads st dp logs_dir = Ok r ->
  exists status rest, r = JObj (("status", JStr status) :: rest).
Proof.
  unfold _validate_single_result.
  destruct (getitem dp "instance_id") as [iid|]; [|discriminate]. simpl.
  destruct (getitem dp "FAIL_TO_PASS") as [rf|]; [|discriminate]. simpl.
  destruct (loads_value json_loads rf) as [ef|]; [|discriminate]. simpl.
  destruct (getitem dp "PASS_TO_PASS") as [rp|]; [|discriminate]. simpl.
  destruct (loads_value json_loads rp) as [ep|]; [|discriminate]. simpl.
  destruct (joinpath logs_dir iid) as [d|]; [|discriminate]. simpl.
  destruct (exists_ st _) as [[|]|]; [| |discriminate]; simpl.
  - destruct (read_and_compare _ _ _ _ _ _) as [r'|e] eqn:E.
    + intros [= <-]. eapply read_and_compare_shape, E.
    + intros [= <-]. eauto.
  - intros [= <-]. eauto.
Qed.

(** The test of the batch loop never raises on the result of a file. *)
Lemma counts_as_success_file (st : state) (file_name : string) :
  counts_as_success (fst (validate_file st file_name))
  = Ok (successful (fst (validate_file st file_name))).
Proof.
  unfold _validate_single_file.
  destruct (load st data_points_dir (Some [file_name])) as [[|dp others]|e];
    try reflexivity.
  destruct (get dp "instance_id" (JStr "unknown")) as [iid|e]; try reflexivity.
  destruct (convert_to_predictions "gpt-4" [dp]) as [[|p ps]|e];
    try reflexivity.
  destruct (save_predictions_to_file st (p :: ps) _) as [[|] st1];
    try reflexivity.
  simpl negb. cbv iota.
  destruct (_run_docker_evaluation harness st1 _ file_name) as [[|err] st2];
    try reflexivity.
  destruct (_validate_single_result json_loads st2 dp _) as [r|e] eqn:E;
    try reflexivity.
  destruct (compare_shape _ _ _ _ E) as [status [rest ->]]. reflexivity.
Qed.


#[local] Abbreviation trace := (file_trace json_loads harness data_points_dir).
#[local] Abbreviation after := (state_after json_loads harness data_points_dir).

(** The loop of the batch: it never raises, it counts the successful and
    the failed results of the trace, ends in the state the files leave, and
    records for every file the result of its last run. *)
Lemma process_files_spec (names : list string) :
  forall (st : state) (acc : tally),
  exists results,
    process_files json_loads harness data_points_dir st names acc
    = (Ok (Tally
             (t_successful acc
              + Z.of_nat (length (List.filter successful (trace st names))))
             (t_failed acc
              + Z.of_nat (length (List.filter failed (trace st names))))
             results),
       after st names) /\
    (forall n, ~ In n names -> results !! n = t_results acc !! n) /\
    (forall pre n post,
       names = (pre ++ n :: post)%list -> ~ In n post ->
       results !! n = Some (fst (validate_file (after st pre) n))).
Proof.
  induction names as [|f names IH]; intros st acc.
  - exists (t_results acc). simpl. rewrite !Z.add_0_r. destruct acc.
    split; [reflexivity|]. split; [reflexivity|].
    intros [|? ?] ? ? H; discriminate H.
  - cbn [process_files file_trace state_after].
    destruct (validate_file st f) as [r st'] eqn:E.
    pose proof (counts_as_success_file st f) as Hc. rewrite E in Hc.
    cbn [fst snd] in *. rewrite Hc.
    assert (forall acc',
              t_results acc' = <[f := r]> (t_results acc) ->
              exists results,
                process_files json_loads harness data_points_dir st' names acc'
                = (Ok (Tally
                         (t_successful acc'
                          + Z.of_nat (length (List.filter successful
                                                (trace st' names))))
                         (t_failed acc'
                          + Z.of_nat (length (List.filter failed
                                                (trace st' names))))
                         results),
                   after st' names) /\
                (forall n, ~ In n (f :: names) ->
                           results !! n = t_results acc !! n) /\
                (forall pre n post,
                   f :: names = (pre ++ n :: post)%list -> ~ In n post ->
                   results !! n
                   = Some (fst (validate_file (after st pre) n)))) as Hstep.
    { intros acc' Hacc. destruct (IH st' acc') as [results [Hp [Hout Hin]]].
      exists results. split; [exact Hp|]. split.
      - intros n Hn. rewrite Hout by (intros ?; apply Hn; now right).
        rewrite Hacc. apply lookup_insert_ne. intros ->. apply Hn. now left.
      - intros [|f' pre] n post Heq Hn.
        + injection Heq as <- <-. rewrite (Hout _ Hn), Hacc.
          rewrite lookup_insert_eq. simpl. now rewrite E.
        + injection Heq as <- Heq. simpl. rewrite E. simpl.
          exact (Hin pre n post Heq Hn). }
    cbn [List.filter]. change (failed r) with (negb (successful r)).
    destruct (successful r); cbn [negb length].
    + destruct (Hstep (Tally (t_successful acc + 1) (t_failed acc)
                         (<[f := r]> (t_results acc))) eq_refl)
        as [results [Hp H]].
      exists results. split; [|exact H]. rewrite Hp. cbn [t_successful t_failed].
      do 3 f_equal; lia.
    + destruct (Hstep (Tally (t_successful acc) (t_failed acc + 1)
                         (<[f := r]> (t_results acc))) eq_refl)
        as [results [Hp H]].
      exists results. split; [|exact H]. rewrite Hp. cbn [t_successful t_failed].
      do 3 f_equal; lia.
Qed.

Lemma trace_length (names : list string) :
  forall st, length (trace st names) = length names.
Proof. induction names as [|f names IH]; intros st; simpl; auto. Qed.

Lemma filter_split (l : list json) :
  (length (List.filter successful l) + length (List.filter failed l)
   = length l)%nat.
Proof.
  induction l as [|x l IH]; [reflexivity|]. unfold failed in *. simpl.
  destruct (successful x); simpl; lia.
Qed.


#[local] Abbreviation predictions_file file_name :=
  ("predictions_" ++ file_name ++ ".jsonl").
#[local] Abbreviation logs_of file_name :=
  (path_join (path_join "logs/run_evaluation" file_name) "gpt-4").

(** *** The steps of one file *)







(** *** The batch *)

Lemma batch_runs (st : state) (file_names : option (list string)) :
  targets data_points_dir st file_names <> [] ->
  exists r,
    validate_data_points json_loads harness data_points_dir st file_names
    = (BatchOk r, after st (targets data_points_dir st file_names)) /\
    total_files r
    = Z.of_nat (length (targets data_points_dir st file_names)) /\
    successful_files r
    = Z.of_nat (length (List.filter successful
                          (trace st (targets data_points_dir st file_names)))) /\
    failed_files r
    = Z.of_nat (length (List.filter failed
                          (trace st (targets data_points_dir st file_names)))) /\
    success_rate r = rate (successful_files r) (total_files r) /\
    (forall pre n post,
       targets data_points_dir st file_names = (pre ++ n :: post)%list ->
       ~ In n post ->
       file_results r !! n = Some (fst (validate_file (after st pre) n))).
Proof.
  intros Hne. unfold validate_data_points.
  assert (match file_names with
          | None =>
              let* json_files := glob st data_points_dir in
              Ok (map (stem data_points_dir) json_files)
          | Some names => Ok names
          end = Ok (targets data_points_dir st file_names)) as ->.
  { unfold targets in *. destruct file_names as [names|]; [reflexivity|].
    destruct (glob st data_points_dir); [reflexivity|now destruct Hne]. }
  set (names := targets data_points_dir st file_names) in *.
  destruct (process_files_spec names st (Tally 0 0 ∅))
    as [results [Hp [_ Hin]]].
  destruct names as [|f names'] eqn:E; [now destruct Hne|].
  rewrite Hp. eexists. split; [reflexivity|].
  cbn [total_files successful_files failed_files success_rate file_results
       t_successful t_failed].
  repeat split; try reflexivity. exact Hin.
Qed.


(** C4: on a batch with at least one target, [validate_data_points]
    returns the aggregate: the total is the number of targets; the
    successful files are the results of the trace whose pipeline reports
    success and whose nested status is [success], the failed files are all
    the others, so that the two counts add up to the total; the success
    rate is successful / total * 100, and the rate of an empty total
    is 0. *)
Theorem batch_counts (st : state) (file_names : option (list string)) :
  targets data_points_dir st file_names <> [] ->
  exists r,
    validate_data_points json_loads harness data_points_dir st file_names
    = (BatchOk r, after st (targets data_points_dir st file_names)) /\
    total_files r
    = Z.of_nat (length (targets data_points_dir st file_names)) /\
    successful_files r
    = Z.of_nat (length (List.filter successful
                          (trace st (targets data_points_dir st file_names)))) /\
    failed_files r
    = Z.of_nat (length (List.filter failed
                          (trace st (targets data_points_dir st file_names)))) /\
    (successful_files r + failed_files r = total_files r)%Z /\
    success_rate r
    = (inject_Z (successful_files r) / inject_Z (total_files r) * 100)%Q /\
    (forall s, rate s 0 = 0%Q) /\
    (forall fr,
       successful fr = true <->
       field fr "success" = JBool true /\
       field (field fr "validation_result") "status" = JStr "success") /\
    (forall fr, failed fr = true <-> successful fr = false).
Proof.
  intros Hne.
  destruct (batch_runs st file_names Hne) as [r [Hv [Ht [Hs [Hf [Hr _]]]]]].
  exists r. split; [exact Hv|]. split; [exact Ht|]. split; [exact Hs|].
  split; [exact Hf|]. split; [|split; [|split; [|split]]].
  - rewrite Hs, Hf, Ht, <- Nat2Z.inj_add, filter_split, trace_length.
    reflexivity.
  - rewrite Hr. unfold rate.
    assert ((total_files r >? 0)%Z = true) as ->; [|reflexivity].
    rewrite Ht. destruct (targets data_points_dir st file_names);
      [now destruct Hne|reflexivity].
  - reflexivity.
  - intros fr. unfold successful, is_true_flag, eq_str.
    rewrite andb_true_iff.
    destruct (field fr "success") as [|[|]| | | |];
      destruct (field (field fr "validation_result") "status")
        as [| | |status| |]; try (split; intros [? ?]; discriminate).
    rewrite String.eqb_eq. split.
    + intros [_ <-]. split; reflexivity.
    + intros [_ [= <-]]. split; reflexivity.
  - intros fr. unfold failed. destruct (successful fr); simpl; split;
      congruence.
Qed.



End Facts.

Import Scenario.

(** C4 at the batch of the specification: four targets, of which [foo]
    classifies [success], [nothere] does not load, [crash] fails in the
    harness and [raw] fails in the comparison. *)
Lemma batch_counts_witness :
  exists r,
    fst (validate_data_points JsonText.json_loads harness "data_points" world
           (Some ["foo"; "nothere"; "crash"; "raw"])) = BatchOk r /\
    total_files r = 4%Z /\ successful_files r = 1%Z /\ failed_files r = 3%Z /\
    (success_rate r == 25)%Q.
Proof.
  destruct (batch_counts JsonText.json_loads harness "data_points" world
              (Some ["foo"; "nothere"; "crash"; "raw"]))
    as [r [Hv [Ht [Hs [Hf [_ [Hr _]]]]]]].
  - discriminate.
  - exists r. rewrite Hv. split; [reflexivity|].
    assert (total_files r = 4%Z) as Ht' by exact Ht.
    assert (successful_files r = 1%Z) as Hs'
      by (rewrite Hs; vm_compute; reflexivity).
    assert (failed_files r = 3%Z) as Hf'
      by (rewrite Hf; vm_compute; reflexivity).
    rewrite Hr, Hs', Ht'. repeat split; try assumption.
Defined.



End BatchFacts.

(** ** More on the loader *)

Module LoaderProps.

Import DataLoader Shape Terms.

Section Props.

Variable json_loads : string -> Result json.

Lemma valid_record_spec (data_point : json) :
  _validate_data_point data_point = Ok true <->
  valid_record data_point = true.
Proof.
  split.
  - intros H. destruct (LoaderFacts.validate_true_dict _ H) as [kvs ->].
    unfold _validate_data_point in H.
    rewrite LoaderFacts.check_required_dict in H. unfold valid_record, field.
    destruct (forallb (has_field kvs) required_fields) eqn:Hall;
      [|discriminate H].
    simpl in Hall. unfold has_field in Hall.
    simpl in H.
    destruct (assoc "patch" kvs) as [[| | |p| |]|]; try discriminate H.
    simpl in H. destruct (String.eqb (strip p) ""); [discriminate H|].
    simpl in H |- *.
    destruct (assoc "FAIL_TO_PASS" kvs) as [f|];
      destruct (assoc "PASS_TO_PASS" kvs) as [q|]; simpl in H |- *;
      try (destruct (truthy f)); try (destruct (truthy q));
      simpl in *; try reflexivity; try discriminate H.
  - destruct data_point as [| | | | |kvs]; try discriminate.
    unfold valid_record, field. intros H.
    apply andb_prop in H as [H Ht]. apply andb_prop in H as [Hall Hp].
    unfold _validate_data_point.
    rewrite LoaderFacts.check_required_dict, Hall. simpl.
    destruct (assoc "patch" kvs) as [[| | |p| |]|]; try discriminate Hp.
    simpl. destruct (String.eqb (strip p) ""); [discriminate Hp|]. simpl.
    destruct (assoc "FAIL_TO_PASS" kvs) as [f|];
      destruct (assoc "PASS_TO_PASS" kvs) as [q|]; simpl in Ht |- *;
      try (destruct (truthy f)); try (destruct (truthy q));
      simpl in *; try reflexivity; try discriminate Ht.
Qed.


(** The validation accepts exactly the dicts that have the six fields, a
    patch that is a text and not blank, and a true value under
    [FAIL_TO_PASS] or [PASS_TO_PASS]. *)
Theorem validate_iff_valid_record (data_point : json) :
  _validate_data_point data_point = Ok true <->
  valid_record data_point = true.
Proof.
  split; intros H.
  - apply valid_record_spec. exact H.
  - apply valid_record_spec. exact H.
Qed.

Lemma omap_cons {A B : Type} (f : A -> option B) (x : A) (l : list A) :
  omap f (x :: l)
  = match f x with Some y => y :: omap f l | None => omap f l end.
Proof. reflexivity. Qed.

Lemma valid_truthy (dp : json) :
  _validate_data_point dp = Ok true ->
  truthy dp = true /\ exists i, get dp "instance_id" (JStr "unknown") = Ok i.
Proof.
  intros H. destruct (BatchFacts.validate_true_fields _ H) as [kvs [-> Hall]].
  destruct kvs as [|kv kvs]; [discriminate Hall|]. split; [reflexivity|].
  simpl. eauto.
Qed.

Lemma load_files_omap (st : state) (files : list string) :
  load_files json_loads st files
  = Ok (omap (_load_single_data_point json_loads st) files).
Proof.
  induction files as [|f files IH]; [reflexivity|].
  cbn [load_files]. rewrite omap_cons.
  destruct (_load_single_data_point json_loads st f) as [dp|] eqn:E;
    [|exact IH].
  apply LoaderFacts.load_single_valid in E as [_ Hv].
  destruct (valid_truthy _ Hv) as [-> [i ->]]. simpl. rewrite IH. reflexivity.
Qed.

Lemma resolve_omap (st : state) (dir : string) (names files : list string) :
  resolve_files st dir names = Ok files ->
  omap (_load_single_data_point json_loads st) files
  = omap (load_named json_loads st dir) names.
Proof.
  revert files. induction names as [|n names IH]; intros files.
  - intros [= <-]. reflexivity.
  - cbn [resolve_files]. rewrite LoaderFacts.resolve_path, omap_cons.
    unfold load_named at 1.
    destruct (exists_ st (file_path_of dir n)) as [found|e]; [|discriminate].
    destruct (resolve_files st dir names) as [rest|e]; [|discriminate].
    simpl. intros [= <-]. specialize (IH rest eq_refl).
    destruct found; [rewrite omap_cons|]; now rewrite IH.
Qed.

Lemma resolve_app (st : state) (dir : string) (a b : list string) :
  resolve_files st dir (a ++ b)
  = let* fa := resolve_files st dir a in
    let* fb := resolve_files st dir b in
    Ok (fa ++ fb)%list.
Proof.
  induction a as [|n a IH].
  - simpl. destruct (resolve_files st dir b); reflexivity.
  - cbn [resolve_files app]. rewrite IH.
    destruct (exists_ st _) as [found|e]; [|reflexivity]. simpl.
    destruct (resolve_files st dir a) as [fa|e]; [|reflexivity]. simpl.
    destruct (resolve_files st dir b) as [fb|e]; [|reflexivity]. simpl.
    destruct found; reflexivity.
Qed.

(** What the loader computes: the existence tests, then the records of the
    names, or of the record files of the directory. *)
Lemma load_omap (st : state) (dir : string)
  (file_names : option (list string)) :
  load_data_points_by_files json_loads st dir file_names
  = let* found := exists_ st dir in
    if found then
      match file_names with
      | Some names =>
          let* _ := resolve_files st dir names in
          Ok (omap (load_named json_loads st dir) names)
      | None => Ok (omap (_load_single_data_point json_loads st)
                      (glob_json st dir))
      end
    else Ok [].
Proof.
  unfold load_data_points_by_files.
  destruct (exists_ st dir) as [[|]|e] eqn:Ed; [|reflexivity|reflexivity].
  simpl. destruct file_names as [names|]; simpl.
  - destruct (resolve_files st dir names) as [files|e] eqn:E; [|reflexivity].
    simpl. rewrite <- (resolve_omap _ _ _ _ E).
    destruct files; [reflexivity|]. apply load_files_omap.
  - rewrite (OSFacts.glob_returns _ _ _ Ed). simpl.
    destruct (glob_json st dir) as [|f fs] eqn:E; [reflexivity|].
    apply load_files_omap.
Qed.

(** When its existence tests return, the loader returns, in the order of
    the names, the record of every name whose file is there, parses and is
    valid, and nothing for the other names, so never more records than
    names; without names, the same for the record files of the directory;
    and nothing at all when the directory is not there.  When one of the
    tests raises, the call raises its error. *)
Theorem load_is_omap (st : state) (dir : string)
  (file_names : option (list string)) :
  (lookups_return st dir file_names = true ->
   load_data_points_by_files json_loads st dir file_names
   = Ok (match exists_ st dir with
         | Ok true =>
             match file_names with
             | Some names => omap (load_named json_loads st dir) names
             | None => omap (_load_single_data_point json_loads st)
                         (glob_json st dir)
             end
         | _ => []
         end)) /\
  (lookups_return st dir file_names = false ->
   exists e p,
     load_data_points_by_files json_loads st dir file_names = Raise e /\
     exists_ st p = Raise e) /\
  (forall names,
     (length (omap (load_named json_loads st dir) names) <= length names)%nat).
Proof.
  split; [|split].
  - rewrite load_omap. unfold lookups_return.
    destruct (exists_ st dir) as [[|]|e]; [|reflexivity|discriminate].
    destruct file_names as [names|]; [|reflexivity].
    intros H. pose proof (LoaderFacts.resolve_returns st dir names) as Hr.
    rewrite H in Hr. destruct Hr as [files ->]. reflexivity.
  - intros H. pose proof (LoaderFacts.load_returns json_loads st dir file_names)
      as Hr.
    rewrite H in Hr. exact Hr.
  - induction names as [|n names IH]; [reflexivity|].
    rewrite omap_cons. destruct (load_named json_loads st dir n); simpl; lia.
Qed.

(** Loading a list of names is loading its parts one after the other: when
    both parts return, the whole returns the records of the first part
    followed by those of the second; when a part raises, the whole raises
    the error of the first part that does. *)
Theorem load_app (st : state) (dir : string) (a b : list string) :
  match load_data_points_by_files json_loads st dir (Some a),
        load_data_points_by_files json_loads st dir (Some b) with
  | Ok la, Ok lb =>
      load_data_points_by_files json_loads st dir (Some (a ++ b)%list)
      = Ok (la ++ lb)%list
  | Ok _, Raise e | Raise e, _ =>
      load_data_points_by_files json_loads st dir (Some (a ++ b)%list)
      = Raise e
  end.
Proof.
  rewrite !load_omap, resolve_app.
  destruct (exists_ st dir) as [[|]|e]; [|reflexivity|reflexivity]. simpl.
  destruct (resolve_files st dir a) as [fa|e]; [|reflexivity]. simpl.
  destruct (resolve_files st dir b) as [fb|e]; [|reflexivity]. simpl.
  now rewrite omap_app.
Qed.

(** One name gives the record [dp], and it alone, exactly when the
    directory and the file are there, the file parses to [dp] and [dp] is a
    valid record: the record is returned as it was parsed. *)
Theorem load_one_iff (st : state) (dir name : string) (dp : json) :
  load_data_points_by_files json_loads st dir (Some [name]) = Ok [dp] <->
  exists_ st dir = Ok true /\
  (exists c, fs st !! file_path_of dir name = Some (File c) /\
             json_loads c = Ok dp) /\
  valid_record dp = true.
Proof.
  rewrite load_omap, omap_cons. cbn [resolve_files].
  rewrite LoaderFacts.resolve_path. unfold load_named.
  unfold exists_ at 2 3, _load_single_data_point, json_load, read_text.
  rewrite <- valid_record_spec.
  destruct (exists_ st dir) as [[|]|e0];
    [|split; [discriminate|intros [H _]; discriminate]..].
  destruct (fs st !! file_path_of dir name) as [[|c|e|e]|] eqn:E; simpl;
    try (split; [discriminate|intros [_ [[c' [H _]] _]]; discriminate]).
  destruct (json_loads c) as [d|e] eqn:Ec; simpl.
  - destruct (_validate_data_point d) as [[|]|e] eqn:Ev; simpl.
    + split.
      * intros [= <-]. split; [reflexivity|]. split; [|exact Ev]. eauto.
      * intros [_ [[c' [[= <-] Hc]] _]]. rewrite Ec in Hc.
        now injection Hc as ->.
    + split; [discriminate|].
      intros [_ [[c' [[= <-] Hc]] Hv]]. rewrite Ec in Hc.
      injection Hc as ->. rewrite Ev in Hv. discriminate.
    + split; [discriminate|].
      intros [_ [[c' [[= <-] Hc]] Hv]]. rewrite Ec in Hc.
      injection Hc as ->. rewrite Ev in Hv. discriminate.
  - split; [discriminate|].
    intros [_ [[c' [[= <-] Hc]] _]]. rewrite Ec in Hc. discriminate.
Qed.

Lemma rev_app_app (a b c : string) :
  String.rev_app (a ++ b) c = String.rev_app b (String.rev_app a c).
Proof.
  revert c. induction a as [|x a IH]; intros c; [reflexivity|].
  change (String x a ++ b) with (String x (a ++ b)). simpl. apply IH.
Qed.

Lemma ends_with_json (name : string) : ends_with (name ++ ".json") ".json" = true.
Proof.
  unfold ends_with, String.rev. rewrite rev_app_app. reflexivity.
Qed.

(** The suffix [.json] of a name is optional: a name that does not end
    with it and the same name with it load the same. *)
Theorem json_suffix_optional (st : state) (dir name : string) :
  ends_with name ".json" = false ->
  load_data_points_by_files json_loads st dir (Some [name ++ ".json"])
  = load_data_points_by_files json_loads st dir (Some [name]).
Proof.
  intros H. rewrite !load_omap, !omap_cons. cbn [resolve_files].
  rewrite !LoaderFacts.resolve_path.
  unfold load_named, file_path_of. rewrite ends_with_json, H. reflexivity.
Qed.

End Props.

Import Scenario.

(** At the files of the scenarios and four names, one of a file that is
    not there and one of a file that does not parse: two records. *)
Lemma load_is_omap_witness :
  load_data_points_by_files JsonText.json_loads world "data_points"
    (Some ["foo"; "nothere"; "broken"; "crash"])
  = Ok [foo; crash].
Proof.
  rewrite (proj1 (load_is_omap JsonText.json_loads world "data_points"
                    (Some ["foo"; "nothere"; "broken"; "crash"]))).
  - vm_compute. reflexivity.
  - vm_compute. reflexivity.
Defined.

(** The names [foo] and [foo.json] load the same in the scenario world. *)
Lemma json_suffix_optional_witness :
  load_data_points_by_files JsonText.json_loads world "data_points"
    (Some ["foo.json"])
  = load_data_points_by_files JsonText.json_loads world "data_points"
      (Some ["foo"]).
Proof.
  apply (json_suffix_optional JsonText.json_loads world "data_points" "foo").
  reflexivity.
Defined.

End LoaderProps.

(** ** More on the formatter *)

Module FormatterProps.

Import Formatter Shape Terms.

Section Props.

Variable model_name : string.

(** An entry that is not a dict makes the whole conversion raise: the
    [AttributeError] of its missing [get], once the dicts before it have
    been converted. *)
Theorem convert_raises_on_non_dict (pre post : list json) (v : json) :
  Forall (fun dp => is_dict dp = true) pre ->
  is_dict v = false ->
  convert_to_predictions model_name (pre ++ v :: post)%list
  = Raise (no_attribute v "get").
Proof.
  intros Hpre Hv. induction Hpre as [|dp pre Hd _ IH].
  - destruct v; try discriminate Hv; reflexivity.
  - change ((dp :: pre) ++ v :: post)%list with (dp :: (pre ++ v :: post))%list.
    cbn [convert_to_predictions].
    rewrite (FormatterFacts.convert_single_dict _ _ Hd). simpl.
    destruct (convertible dp); simpl.
    + rewrite IH. reflexivity.
    + destruct dp; try discriminate Hd. simpl. exact IH.
Qed.

End Props.

(** Saving changes the one path it is given and nothing else.  When it
    succeeds the file holds the lines of the predictions, every other path
    is as before and no harness call is recorded; when it fails nothing
    changes; and it fails for a new path inside a directory that is not
    there. *)
Theorem save_effect (st : state) (predictions : list json) (path : string) :
  let r := save_predictions_to_file st predictions path in
  (fst r = false -> snd r = st) /\
  (fst r = true ->
   read_text (snd r) path = Ok (jsonl predictions) /\
   (forall q, q <> path -> fs (snd r) !! q = fs st !! q) /\
   harness_calls (snd r) = harness_calls st) /\
  (forall d,
     fs st !! path = None -> parent path = Some d -> d <> "" ->
     fs st !! d = None -> fst r = false).
Proof.
  cbv zeta. rewrite OSFacts.save_spec.
  destruct (writable st path) eqn:W; cbn [fst snd].
  - split; [discriminate|]. split.
    + intros _. rewrite OSFacts.read_written. repeat split.
      intros q Hq. cbn [fs]. now apply lookup_insert_ne.
    + intros d Hp Hd Hne Hn. unfold writable in W. rewrite Hp, Hd in W.
      destruct d; [now destruct Hne|]. rewrite Hn in W. discriminate W.
  - split; [reflexivity|]. split; [discriminate|reflexivity].
Qed.

(** Saving to the same path again overwrites: after a successful save, a
    second save succeeds too and leaves the world as if it had been the
    only one. *)
Theorem save_overwrites (st st1 : state) (first second : list json)
  (path : string) :
  save_predictions_to_file st first path = (true, st1) ->
  save_predictions_to_file st1 second path
  = save_predictions_to_file st second path /\
  fst (save_predictions_to_file st second path) = true.
Proof.
  rewrite !OSFacts.save_spec.
  destruct (writable st path) eqn:W; intros [= <-].
  assert (writable (State (<[path := File (jsonl first)]> (fs st))
                      (harness_calls st)) path = true) as ->.
  { unfold writable. cbn [fs]. now rewrite lookup_insert_eq. }
  cbn [fs harness_calls]. rewrite insert_insert_eq. split; reflexivity.
Qed.

Import Scenario.

(** A list in the middle of two dicts. *)
Lemma convert_raises_on_non_dict_witness :
  convert_to_predictions "gpt-4" [foo; JArr []; crash]
  = Raise (no_attribute (JArr []) "get").
Proof.
  apply (convert_raises_on_non_dict "gpt-4" [foo] [crash] (JArr [])).
  - repeat constructor.
  - reflexivity.
Defined.

(** Saving to [predictions.jsonl] in the scenario world, and to a path in
    a directory that is not there. *)
Lemma save_effect_witness :
  read_text (snd (save_predictions_to_file world [foo] "predictions.jsonl"))
    "predictions.jsonl" = Ok (jsonl [foo]) /\
  fst (save_predictions_to_file world [foo] "out/predictions.jsonl") = false.
Proof.
  split.
  - apply (proj1 (proj2 (save_effect world [foo] "predictions.jsonl"))).
    vm_compute. reflexivity.
  - apply (proj2 (proj2 (save_effect world [foo] "out/predictions.jsonl")) "out").
    + vm_compute. reflexivity.
    + vm_compute. reflexivity.
    + discriminate.
    + vm_compute. reflexivity.
Defined.

(** Saving twice to [predictions.jsonl] in the scenario world. *)
Lemma save_overwrites_witness :
  fst (save_predictions_to_file
         (snd (save_predictions_to_file world [foo] "predictions.jsonl"))
         [crash] "predictions.jsonl") = true.
Proof.
  destruct (save_overwrites world
              (snd (save_predictions_to_file world [foo] "predictions.jsonl"))
              [foo] [crash] "predictions.jsonl") as [-> H].
  - vm_compute. reflexivity.
  - exact H.
Defined.

End FormatterProps.

(** ** More on the pipeline of one file *)

Module PipelineProps.

Import DataLoader Formatter Validator Shape Terms.

Section Props.

Variable json_loads : string -> Result json.
Variable harness :
  gmap string node -> list string -> docker_outcome * gmap string node.
Variable data_points_dir : string.

#[local] Abbreviation validate_file :=
  (_validate_single_file json_loads harness data_points_dir).

Lemma strip_empty_false (p : string) :
  String.eqb (strip p) "" = false -> String.eqb p "" = false.
Proof. destruct p; [discriminate|reflexivity]. Qed.

Lemma convert_valid_record (model_name : string) (dp : json) :
  valid_record dp = true ->
  convert_to_predictions model_name [dp]
  = Ok (if truthy (field dp "instance_id")
        then [prediction_of model_name dp] else []).
Proof.
  intros H. rewrite FormatterFacts.convert_dicts.
  2:{ constructor; [|constructor]. destruct dp; try discriminate H.
      reflexivity. }
  destruct dp as [| | | | |kvs]; try discriminate H.
  unfold valid_record in H. apply andb_prop in H as [H _].
  apply andb_prop in H as [_ Hp].
  cbn [List.filter]. unfold convertible, field. simpl is_dict.
  destruct (assoc "patch" kvs) as [[| | |p| |]|]; try discriminate Hp.
  apply negb_true_iff, strip_empty_false in Hp. simpl truthy at 2.
  rewrite Hp. simpl. rewrite andb_true_r.
  destruct (truthy _); reflexivity.
Qed.

(** A valid record is converted, to its prediction, unless its instance id
    is a false value: its patch never is. *)
Theorem valid_record_converts (model_name : string) (dp : json) :
  valid_record dp = true ->
  truthy (field dp "patch") = true /\
  convert_to_predictions model_name [dp]
  = Ok (if truthy (field dp "instance_id")
        then [prediction_of model_name dp] else []).
Proof.
  intros H. split; [|apply convert_valid_record, H].
  destruct dp as [| | | | |kvs]; try discriminate H.
  unfold valid_record in H. apply andb_prop in H as [H _].
  apply andb_prop in H as [_ Hp]. unfold field.
  destruct (assoc "patch" kvs) as [[| | |p| |]|]; try discriminate Hp.
  apply negb_true_iff, strip_empty_false in Hp. simpl. now rewrite Hp.
Qed.

Lemma loaded_valid (st : state) (file_name : string) (dp : json) :
  loaded json_loads data_points_dir st file_name = Some dp ->
  valid_record dp = true.
Proof.
  unfold loaded, load_named.
  destruct (exists_ st data_points_dir) as [[|]|]; try discriminate.
  destruct (exists_ st _) as [[|]|]; try discriminate.
  intros H. apply LoaderFacts.load_single_valid in H as [_ H].
  now apply LoaderProps.valid_record_spec.
Qed.

(** Loading one name: the data point of the target alone, or nothing, or
    the error of an existence test. *)
Lemma load_one (st : state) (file_name : string) :
  match loaded json_loads data_points_dir st file_name with
  | Some dp =>
      load_data_points_by_files json_loads st data_points_dir (Some [file_name])
      = Ok [dp]
  | None =>
      load_data_points_by_files json_loads st data_points_dir (Some [file_name])
      = Ok [] \/
      exists e,
        load_data_points_by_files json_loads st data_points_dir
          (Some [file_name]) = Raise e
  end.
Proof.
  rewrite LoaderProps.load_omap, LoaderProps.omap_cons. unfold loaded.
  cbn [resolve_files]. rewrite LoaderFacts.resolve_path.
  destruct (exists_ st data_points_dir) as [[|]|e]; simpl; eauto.
  unfold load_named.
  destruct (exists_ st (file_path_of data_points_dir file_name)) as [[|]|e];
    simpl; eauto.
  destruct (_load_single_data_point _ _ _); eauto.
Qed.

Lemma valid_instance_id (dp : json) :
  valid_record dp = true ->
  get dp "instance_id" (JStr "unknown") = Ok (field dp "instance_id").
Proof.
  destruct dp as [| | | | |kvs]; try discriminate. unfold valid_record.
  intros H. apply andb_prop in H as [H _]. apply andb_prop in H as [H _].
  simpl in H. apply andb_prop in H as [H _]. unfold has_field in H.
  simpl. destruct (assoc "instance_id" kvs); [reflexivity|discriminate].
Qed.

(** What one file does to the world.  When the target loads, its instance
    id is a true value and the predictions file can be written, the
    predictions file is written with the one prediction, the harness runs
    once on that file system and leaves the one it returns; in every other
    case nothing changes and the harness is not run. *)
Theorem pipeline_effect (st : state) (file_name : string) :
  snd (validate_file st file_name)
  = match loaded json_loads data_points_dir st file_name with
    | Some dp =>
        if truthy (field dp "instance_id")
           && writable st (predictions_path file_name)
        then
          State (snd (harness (fs_for_harness st file_name dp)
                        (docker_cmd (predictions_path file_name) file_name)))
                (harness_calls st
                 ++ [(predictions_path file_name, file_name)])
        else st
    | None => st
    end.
Proof.
  unfold _validate_single_file. pose proof (load_one st file_name) as L.
  destruct (loaded json_loads data_points_dir st file_name) as [dp|] eqn:E;
    [|destruct L as [L|[e L]]; rewrite L; reflexivity].
  rewrite L. pose proof (loaded_valid _ _ _ E) as Hv.
  rewrite (valid_instance_id _ Hv), (convert_valid_record _ _ Hv).
  destruct (truthy (field dp "instance_id")); [|reflexivity].
  cbn [andb]. rewrite OSFacts.save_spec.
  change ("predictions_" ++ file_name ++ ".jsonl")
    with (predictions_path file_name).
  destruct (writable st (predictions_path file_name)); [|reflexivity].
  simpl negb. cbv iota. unfold _run_docker_evaluation, fs_for_harness.
  simpl fs.
  destruct (harness _ _) as [[n| |e] fs']; simpl.
  - destruct (n =? 0)%Z; [|reflexivity].
    destruct (_validate_single_result _ _ _ _); reflexivity.
  - reflexivity.
  - reflexivity.
Qed.



(** The harness step succeeds exactly when the subprocess returns code 0;
    another code, a timeout and a launch error fail with their reason; in
    every case the call is recorded and the file system is the one the
    harness leaves. *)
Theorem docker_outcomes (st : state) (predictions_file run_id : string) :
  let out := harness (fs st) (docker_cmd predictions_file run_id) in
  let r := _run_docker_evaluation harness st predictions_file run_id in
  snd r = State (snd out) (harness_calls st ++ [(predictions_file, run_id)]) /\
  (fst r = DockerOk <-> fst out = Returned 0) /\
  (forall n, fst out = Returned n -> n <> 0%Z ->
             fst r = DockerFailed ("Exit code: " ++ pretty n)) /\
  (fst out = TimeoutExpired -> fst r = DockerFailed "Timeout") /\
  (forall e, fst out = LaunchError e -> fst r = DockerFailed (text e)).
Proof.
  unfold _run_docker_evaluation.
  destruct (harness (fs st) (docker_cmd predictions_file run_id))
    as [[n| |e] fs']; simpl.
  - destruct (Z.eqb_spec n 0) as [->|Hn]; simpl.
    + repeat split; try discriminate; try reflexivity.
      intros n [= <-] H. now destruct H.
    + repeat split; try discriminate.
      * intros [= ->]. now destruct Hn.
      * intros m [= <-] _. reflexivity.
  - repeat split; discriminate.
  - repeat split; try discriminate. intros e' [= <-]. reflexivity.
Qed.

Lemma compare_status (st : state) (dp : json) (logs_dir : string) (r : json) :
  _validate_single_result json_loads st dp logs_dir = Ok r ->
  exists status, field r "status" = JStr status /\ In status statuses.
Proof.
  unfold _validate_single_result.
  destruct (getitem dp "instance_id") as [iid|]; [|discriminate]. simpl.
  destruct (getitem dp "FAIL_TO_PASS") as [rf|]; [|discriminate]. simpl.
  destruct (loads_value json_loads rf) as [ef|]; [|discriminate]. simpl.
  destruct (getitem dp "PASS_TO_PASS") as [rp|]; [|discriminate]. simpl.
  destruct (loads_value json_loads rp) as [ep|]; [|discriminate]. simpl.
  destruct (joinpath logs_dir iid) as [d|]; [|discriminate]. simpl.
  destruct (exists_ st _) as [[|]|]; [| |discriminate]; simpl.
  2: intros [= <-]; exists "report_not_found"; simpl; tauto.
  unfold read_and_compare.
  destruct (json_load json_loads st _);
    [|intros [= <-]; exists "read_error"; simpl; tauto].
  simpl.
  destruct (extract_test_results _ _) as [[[ir af] ap]|];
    [|intros [= <-]; exists "read_error"; simpl; tauto].
  simpl.
  destruct (set_eq ef af) as [bf|];
    [|intros [= <-]; exists "read_error"; simpl; tauto].
  simpl.
  destruct (set_eq ep ap) as [bp|];
    [|intros [= <-]; exists "read_error"; simpl; tauto].
  simpl.
  destruct (get ir "resolved" _) as [res|];
    [|intros [= <-]; exists "read_error"; simpl; tauto].
  simpl. intros [= <-].
  destruct (bf && bp && truthy res);
    [exists "success"|exists "test_mismatch"]; simpl; tauto.
Qed.

(** The pipeline of a file, step by step, in the vocabulary of the
    statements. *)
Lemma validate_file_steps (st : state) (file_name : string) :
  validate_file st file_name
  = match loaded json_loads data_points_dir st file_name with
    | None =>
        (failure
           match load_data_points_by_files json_loads st data_points_dir
                   (Some [file_name]) with
           | Raise e => text e
           | Ok _ => "Failed to load " ++ file_name ++ ".json"
           end, st)
    | Some dp =>
        if negb (truthy (field dp "instance_id"))
        then (failure "Failed to convert to prediction", st)
        else if negb (writable st (predictions_path file_name))
        then (failure "Failed to save prediction", st)
        else
          let out := harness (fs_for_harness st file_name dp)
                       (docker_cmd (predictions_path file_name) file_name) in
          let st2 := State (snd out)
                       (harness_calls st
                        ++ [(predictions_path file_name, file_name)]) in
          match fst out with
          | Returned n =>
              if (n =? 0)%Z then
                match _validate_single_result json_loads st2 dp
                        (path_join (path_join "logs/run_evaluation" file_name)
                           "gpt-4") with
                | Ok vr =>
                    (JObj [("success", JBool true);
                           ("instance_id", field dp "instance_id");
                           ("run_id", JStr file_name);
                           ("validation_result", vr)], st2)
                | Raise e => (failure (text e), st2)
                end
              else
                (failure ("Docker evaluation failed: "
                            ++ ("Exit code: " ++ pretty n)), st2)
          | TimeoutExpired =>
              (failure ("Docker evaluation failed: " ++ "Timeout"), st2)
          | LaunchError e =>
              (failure ("Docker evaluation failed: " ++ text e), st2)
          end
    end.
Proof.
  unfold _validate_single_file. pose proof (load_one st file_name) as L.
  destruct (loaded json_loads data_points_dir st file_name) as [dp|] eqn:E;
    [|destruct L as [L|[e L]]; rewrite L; reflexivity].
  rewrite L. pose proof (loaded_valid _ _ _ E) as Hv.
  rewrite (valid_instance_id _ Hv), (convert_valid_record _ _ Hv).
  destruct (truthy (field dp "instance_id")); [|reflexivity].
  simpl negb. cbv iota. rewrite OSFacts.save_spec.
  change ("predictions_" ++ file_name ++ ".jsonl")
    with (predictions_path file_name).
  destruct (writable st (predictions_path file_name)); [|reflexivity].
  simpl negb. cbv iota zeta. unfold _run_docker_evaluation.
  change (fs (State (<[predictions_path file_name :=
                         File (jsonl [prediction_of "gpt-4" dp])]> (fs st))
                    (harness_calls st)))
    with (fs_for_harness st file_name dp).
  simpl harness_calls.
  destruct (harness (fs_for_harness st file_name dp) _) as [[n| |e] fs'];
    simpl; try reflexivity.
  destruct (n =? 0)%Z; reflexivity.
Qed.


(** The result of a file is a failure with its reason, or a success record
    with the instance id of the data point, the target as run id, and a
    comparison whose status is one of the four; and a success record is
    only made when the pipeline got as far as the harness and the harness
    returned code 0. *)
Theorem file_result_shape (st : state) (file_name : string) :
  (exists error, fst (validate_file st file_name) = failure error) \/
  (exists dp vr status,
     loaded json_loads data_points_dir st file_name = Some dp /\
     fst (validate_file st file_name)
     = JObj [("success", JBool true);
             ("instance_id", field dp "instance_id");
             ("run_id", JStr file_name);
             ("validation_result", vr)] /\
     field vr "status" = JStr status /\ In status statuses /\
     reaches_execute json_loads data_points_dir st file_name = true /\
     fst (harness (fs_for_harness st file_name dp)
            (docker_cmd (predictions_path file_name) file_name))
     = Returned 0).
Proof.
  rewrite validate_file_steps. unfold reaches_execute.
  destruct (loaded json_loads data_points_dir st file_name) as [dp|];
    [|left; eauto].
  destruct (truthy (field dp "instance_id")); [|left; simpl; eauto].
  destruct (writable st (predictions_path file_name)); [|left; simpl; eauto].
  simpl negb. cbv iota zeta.
  destruct (harness (fs_for_harness st file_name dp) _) as [[n| |e] fs']
    eqn:Eh; cbn [fst snd]; [|left; simpl; eauto|left; simpl; eauto].
  destruct (Z.eqb_spec n 0) as [->|Hn]; [|left; simpl; eauto].
  destruct (_validate_single_result _ _ _ _) as [vr|e] eqn:Ec;
    [|left; simpl; eauto].
  destruct (compare_status _ _ _ _ Ec) as [status [Hs Hin]].
  right. exists dp, vr, status. rewrite Eh.
  repeat split; try reflexivity; assumption.
Qed.

(** COMPARE reads one entry of the file system, the report of the
    instance: on two states that agree on it, it gives the same. *)
Theorem compare_frame (st1 st2 : state) (dp : json) (logs_dir : string) :
  (forall iid,
     getitem dp "instance_id" = Ok (JStr iid) ->
     fs st1 !! path_join (path_join logs_dir iid) "report.json"
     = fs st2 !! path_join (path_join logs_dir iid) "report.json") ->
  _validate_single_result json_loads st1 dp logs_dir
  = _validate_single_result json_loads st2 dp logs_dir.
Proof.
  intros H. unfold _validate_single_result.
  destruct (getitem dp "instance_id") as [iid|]; [|reflexivity]. simpl.
  destruct (getitem dp "FAIL_TO_PASS") as [rf|]; [|reflexivity]. simpl.
  destruct (loads_value json_loads rf) as [ef|]; [|reflexivity]. simpl.
  destruct (getitem dp "PASS_TO_PASS") as [rp|]; [|reflexivity]. simpl.
  destruct (loads_value json_loads rp) as [ep|]; [|reflexivity]. simpl.
  destruct iid as [| | |iid| |]; try reflexivity. simpl.
  specialize (H iid eq_refl).
  unfold exists_, read_and_compare, json_load, read_text. rewrite H.
  reflexivity.
Qed.


(** A report that is a mapping without the instance never gives
    [success]: the actual lists are empty, [resolved] is [False], and the
    status is [test_mismatch], even when no test is expected. *)
Theorem report_without_instance (st : state) (dp : json)
  (logs_dir iid : string) (eftp eptp : json) (rkvs : list (string * json))
  (sF sP : gset hkey) :
  expects json_loads dp iid eftp eptp ->
  let report_path := path_join (path_join logs_dir iid) "report.json" in
  exists_ st report_path = Ok true ->
  json_load json_loads st report_path = Ok (JObj rkvs) ->
  assoc iid rkvs = None ->
  set_of eftp = Ok sF -> set_of eptp = Ok sP ->
  _validate_single_result json_loads st dp logs_dir
  = Ok (JObj [("status", JStr "test_mismatch");
              ("resolved", JBool false);
              ("fail_to_pass_match", JBool (bool_decide (sF = ∅)));
              ("pass_to_pass_match", JBool (bool_decide (sP = ∅)));
              ("expected_fail_to_pass", eftp);
              ("actual_fail_to_pass", JArr []);
              ("expected_pass_to_pass", eptp);
              ("actual_pass_to_pass", JArr [])]).
Proof.
  intros He report_path Hex Hl Hi HF HP. subst report_path.
  rewrite (CompareFacts.expects_prefix _ _ _ _ _ _ _ He). cbv zeta.
  rewrite Hex. simpl negb. cbv iota.
  unfold read_and_compare. rewrite Hl. simpl.
  unfold extract_test_results. simpl. rewrite Hi. simpl.
  unfold set_eq. rewrite HF, HP. simpl.
  rewrite !andb_false_r. reflexivity.
Qed.

(** An instance id that is not a text cannot be joined to the logs
    directory: once the two test lists are decoded COMPARE raises the
    [TypeError] of the join, whatever the file system holds. *)
Theorem non_text_instance_id (st : state) (dp : json) (logs_dir : string)
  (v eftp eptp : json) :
  getitem dp "instance_id" = Ok v ->
  (forall s, v <> JStr s) ->
  (let* raw := getitem dp "FAIL_TO_PASS" in loads_value json_loads raw)
  = Ok eftp ->
  (let* raw := getitem dp "PASS_TO_PASS" in loads_value json_loads raw)
  = Ok eptp ->
  _validate_single_result json_loads st dp logs_dir
  = Raise (Exn TypeError
               ("unsupported operand type(s) for /: 'PosixPath' and '"
                  ++ type_name v ++ "'")).
Proof.
  intros Hi Hv Hf Hp. unfold _validate_single_result. rewrite Hi. simpl.
  destruct (getitem dp "FAIL_TO_PASS") as [rf|]; [|discriminate Hf].
  simpl in Hf |- *. rewrite Hf. simpl.
  destruct (getitem dp "PASS_TO_PASS") as [rp|]; [|discriminate Hp].
  simpl in Hp |- *. rewrite Hp. simpl.
  destruct v; try reflexivity. now destruct (Hv s).
Qed.

End Props.

Import Scenario.

(** The record [anonymous], whose instance id is empty, is valid and is
    not converted. *)
Lemma valid_record_converts_witness :
  convert_to_predictions "gpt-4" [anonymous] = Ok [].
Proof.
  apply (proj2 (valid_record_converts "gpt-4" anonymous eq_refl)).
Defined.

(** COMPARE of [foo] on the scenario world and on the same world with one
    more data point file. *)
Lemma compare_frame_witness :
  _validate_single_result JsonText.json_loads world foo (logs_dir "foo")
  = _validate_single_result JsonText.json_loads
      (world_with "data_points/new.json" (File "{}")) foo (logs_dir "foo").
Proof.
  apply (compare_frame JsonText.json_loads world
           (world_with "data_points/new.json" (File "{}")) foo
           (logs_dir "foo")).
  intros iid [= <-]. vm_compute. reflexivity.
Defined.

(** [foo] against a report that is an empty mapping. *)
Lemma report_without_instance_witness :
  _validate_single_result JsonText.json_loads (with_report (File "{}")) foo
    (logs_dir "foo")
  = Ok (JObj [("status", JStr "test_mismatch");
              ("resolved", JBool false);
              ("fail_to_pass_match", JBool false);
              ("pass_to_pass_match", JBool true);
              ("expected_fail_to_pass", JArr [JStr "t1"]);
              ("actual_fail_to_pass", JArr []);
              ("expected_pass_to_pass", JArr []);
              ("actual_pass_to_pass", JArr [])]).
Proof.
  rewrite (report_without_instance JsonText.json_loads
             (with_report (File "{}")) foo (logs_dir "foo") "foo"
             (test_ids ["t1"]) (test_ids []) []
             (list_to_set [HStr "t1"]) (list_to_set [])
             ltac:(repeat split; vm_compute; reflexivity)
             ltac:(vm_compute; reflexivity)
             ltac:(vm_compute; reflexivity)
             eq_refl eq_refl eq_refl).
  vm_compute. reflexivity.
Defined.

(** A record whose instance id is the number 7. *)
Lemma non_text_instance_id_witness :
  _validate_single_result JsonText.json_loads world
    (JObj [("instance_id", JNum 7);
           ("FAIL_TO_PASS", encoded ["t1"]);
           ("PASS_TO_PASS", encoded [])])
    (logs_dir "seven")
  = Raise (Exn TypeError
               "unsupported operand type(s) for /: 'PosixPath' and 'int'").
Proof.
  apply (non_text_instance_id JsonText.json_loads world _ (logs_dir "seven")
           (JNum 7) (test_ids ["t1"]) (test_ids [])).
  - reflexivity.
  - intros s. discriminate.
  - vm_compute. reflexivity.
  - vm_compute. reflexivity.
Defined.

End PipelineProps.

(** ** More on the batch *)

Module BatchProps.

Import DataLoader Formatter Validator Shape Terms.

Section Props.

Variable json_loads : string -> Result json.
Variable harness :
  gmap string node -> list string -> docker_outcome * gmap string node.
Variable data_points_dir : string.

#[local] Abbreviation validate_file :=
  (_validate_single_file json_loads harness data_points_dir).
#[local] Abbreviation validate :=
  (validate_data_points json_loads harness data_points_dir).
#[local] Abbreviation trace := (file_trace json_loads harness data_points_dir).
#[local] Abbreviation after := (state_after json_loads harness data_points_dir).

Lemma after_app (a b : list string) :
  forall st, after st (a ++ b)%list = after (after st a) b.
Proof. induction a as [|n a IH]; intros st; simpl; auto. Qed.

Lemma trace_app (a b : list string) :
  forall st, trace st (a ++ b)%list = (trace st a ++ trace (after st a) b)%list.
Proof.
  induction a as [|n a IH]; intros st; simpl; [reflexivity|].
  now rewrite IH.
Qed.

Lemma last_occurrence (n : string) (l : list string) :
  In n l -> exists pre post, l = (pre ++ n :: post)%list /\ ~ In n post.
Proof.
  induction l as [|x l IH]; [intros []|].
  intros H. destruct (in_dec string_dec n l) as [Hl|Hl].
  - destruct (IH Hl) as [pre [post [-> Hp]]].
    exists (x :: pre), post. split; [reflexivity|exact Hp].
  - destruct H as [->|H]; [|contradiction].
    exists [], l. split; [reflexivity|exact Hl].
Qed.

Lemma size_names_le (l : list string) :
  (size (list_to_set l : gset string) <= length l)%nat.
Proof.
  induction l as [|x l IH].
  - change (list_to_set [] : gset string) with (∅ : gset string).
    rewrite size_empty. simpl. lia.
  - change (list_to_set (x :: l) : gset string)
      with ({[x]} ∪ list_to_set l : gset string).
    rewrite size_union_alt, size_singleton.
    assert (list_to_set l ∖ {[x]} ⊆ (list_to_set l : gset string)) as Hsub.
    { apply subseteq_difference_l. reflexivity. }
    apply subseteq_size in Hsub. simpl. lia.
Qed.

(** The result map of a batch has exactly the targets as keys; a target
    named twice is run and counted twice and recorded once, so the map
    never has more entries than the total. *)
Theorem file_results_keys (st : state) (file_names : option (list string)) :
  targets data_points_dir st file_names <> [] ->
  exists r,
    fst (validate st file_names) = BatchOk r /\
    dom (file_results r)
    = (list_to_set (targets data_points_dir st file_names) : gset string) /\
    (Z.of_nat (size (file_results r)) <= total_files r)%Z.
Proof.
  intros Hne. unfold validate_data_points.
  assert (match file_names with
          | None =>
              let* json_files := glob st data_points_dir in
              Ok (map (stem data_points_dir) json_files)
          | Some names => Ok names
          end = Ok (targets data_points_dir st file_names)) as ->.
  { unfold targets in *. destruct file_names as [names|]; [reflexivity|].
    destruct (glob st data_points_dir); [reflexivity|now destruct Hne]. }
  set (names := targets data_points_dir st file_names) in *.
  destruct (BatchFacts.process_files_spec json_loads harness data_points_dir
              names st (Tally 0 0 ∅)) as [results [Hp [Hout Hin]]].
  destruct names as [|f names'] eqn:E; [now destruct Hne|].
  rewrite Hp. eexists. split; [reflexivity|].
  cbn [file_results total_files t_results].
  assert (dom results = (list_to_set (f :: names') : gset string)) as Hdom.
  { apply leibniz_equiv. intros n.
    rewrite elem_of_dom, elem_of_list_to_set, list_elem_of_In. split.
    - intros Hs. destruct (in_dec string_dec n (f :: names')) as [H|H];
        [exact H|].
      rewrite (Hout n H) in Hs. simpl in Hs. rewrite lookup_empty in Hs.
      now destruct Hs.
    - intros H. destruct (last_occurrence _ _ H) as [pre [post [Heq Hp']]].
      rewrite (Hin pre n post Heq Hp'). eauto. }
  split; [exact Hdom|].
  assert (size results = size (dom results : gset string)) as ->
    by (symmetry; apply size_dom).
  rewrite Hdom. apply inj_le, size_names_le.
Qed.

(** A batch can be run in two parts: the second part started on the world
    the first part leaves ends on the same world as the whole batch, and
    the totals and counts of the parts add up to those of the whole. *)
Theorem batch_in_two_parts (st : state) (a b : list string) :
  a <> [] -> b <> [] ->
  exists ra rb rab,
    validate st (Some a) = (BatchOk ra, after st a) /\
    validate (after st a) (Some b) = (BatchOk rb, after st (a ++ b)%list) /\
    validate st (Some (a ++ b)%list) = (BatchOk rab, after st (a ++ b)%list) /\
    (total_files rab = total_files ra + total_files rb)%Z /\
    (successful_files rab = successful_files ra + successful_files rb)%Z /\
    (failed_files rab = failed_files ra + failed_files rb)%Z.
Proof.
  intros Ha Hb.
  destruct (BatchFacts.batch_runs json_loads harness data_points_dir st
              (Some a) Ha) as [ra [Hva [Hta [Hsa [Hfa _]]]]].
  destruct (BatchFacts.batch_runs json_loads harness data_points_dir
              (after st a) (Some b) Hb) as [rb [Hvb [Htb [Hsb [Hfb _]]]]].
  destruct (BatchFacts.batch_runs json_loads harness data_points_dir st
              (Some (a ++ b)%list)) as [rab [Hv [Ht [Hs [Hf _]]]]].
  { simpl. destruct a; [now destruct Ha|discriminate]. }
  simpl targets in *. exists ra, rb, rab.
  split; [exact Hva|]. split; [rewrite after_app; exact Hvb|].
  split; [exact Hv|].
  rewrite Ht, Hs, Hf, Hta, Hsa, Hfa, Htb, Hsb, Hfb, trace_app.
  rewrite !List.filter_app, !length_app. repeat split; lia.
Qed.



(** The exit status of [main] is 0 exactly when there is at least one
    target and every target ends as a successful file; it is 1 in every
    other case. *)
Theorem exit_code_zero_iff (st : state) (instance_ids : option (list string)) :
  (fst (Cli.main json_loads harness st data_points_dir instance_ids) = 0%Z <->
   targets data_points_dir st instance_ids <> [] /\
   Forall (fun r => successful r = true)
          (trace st (targets data_points_dir st instance_ids))) /\
  (fst (Cli.main json_loads harness st data_points_dir instance_ids) = 0%Z \/
   fst (Cli.main json_loads harness st data_points_dir instance_ids) = 1%Z).
Proof.
  unfold Cli.main.
  destruct (targets data_points_dir st instance_ids) as [|f names] eqn:E.
  - assert (exists error, validate st instance_ids = (BatchError error, st))
      as [error ->].
    { unfold validate_data_points. unfold targets in E.
      destruct instance_ids as [names|]; [rewrite E; eauto|].
      destruct (glob st data_points_dir) as [files|e]; simpl;
        [rewrite E|]; eauto. }
    simpl. split; [|now right].
    split; [discriminate|]. intros [H _]. now destruct H.
  - destruct (BatchFacts.batch_runs json_loads harness data_points_dir st
                instance_ids) as [r [Hv [Ht [Hs [Hf [Hr _]]]]]].
    { rewrite E. discriminate. }
    rewrite Hv. cbn [fst Cli.exit_code]. rewrite E in *.
    assert (Qeq_bool (success_rate r) 100 = true <->
            Forall (fun r => successful r = true) (trace st (f :: names)))
      as Hiff.
    { assert (0 < total_files r)%Z as Hpos by (rewrite Ht; simpl; lia).
      rewrite Qeq_bool_iff, Hr. unfold rate.
      assert ((total_files r >? 0)%Z = true) as -> by lia.
      assert (successful_files r + failed_files r = total_files r)%Z as Hsum.
      { rewrite Hs, Hf, Ht, <- Nat2Z.inj_add, BatchFacts.filter_split,
          BatchFacts.trace_length. reflexivity. }
      assert ((inject_Z (successful_files r) / inject_Z (total_files r) * 100
               == 100)%Q <-> failed_files r = 0%Z) as ->.
      { destruct (total_files r) as [|t|t] eqn:Et; try lia.
        unfold Qeq, Qdiv, Qmult, Qinv, inject_Z. simpl. split; intros H; nia. }
      rewrite Hf. generalize (trace st (f :: names)). intros l. split.
      - intros H. induction l as [|x l IH]; [constructor|].
        unfold failed in H. simpl in H.
        destruct (successful x) eqn:Ex; simpl in H; [|lia].
        constructor; [exact Ex|]. apply IH. exact H.
      - intros H. induction H as [|x l Hx _ IH]; [reflexivity|].
        unfold failed in *. simpl. rewrite Hx. simpl. exact IH. }
    split.
    + split.
      * intros H. split; [discriminate|]. apply Hiff.
        destruct (Qeq_bool (success_rate r) 100); [reflexivity|discriminate].
      * intros [_ H]. apply Hiff in H. rewrite H. reflexivity.
    + destruct (Qeq_bool (success_rate r) 100); [now left|now right].
Qed.

End Props.

Import Scenario.

(** The target [foo] named twice. *)
Lemma file_results_keys_witness :
  exists r,
    fst (validate_data_points JsonText.json_loads harness "data_points" world
           (Some ["foo"; "foo"])) = BatchOk r /\
    dom (file_results r) = ({[ "foo" ]} : gset string) /\
    total_files r = 2%Z.
Proof.
  destruct (file_results_keys JsonText.json_loads harness "data_points" world
              (Some ["foo"; "foo"])) as [r [Hr [Hd _]]].
  - discriminate.
  - exists r. split; [exact Hr|]. split.
    + rewrite Hd. apply leibniz_equiv. simpl. set_solver.
    + destruct (BatchFacts.batch_runs JsonText.json_loads harness
                  "data_points" world (Some ["foo"; "foo"]))
        as [r' [Hv [Ht _]]]; [discriminate|].
      rewrite Hv in Hr. injection Hr as <-. exact Ht.
Defined.

(** The batch [nothere; foo] run in two parts. *)
Lemma batch_in_two_parts_witness :
  exists ra rb rab,
    fst (validate_data_points JsonText.json_loads harness "data_points" world
           (Some ["nothere"])) = BatchOk ra /\
    fst (validate_data_points JsonText.json_loads harness "data_points"
           (state_after JsonText.json_loads harness "data_points" world
              ["nothere"])
           (Some ["foo"])) = BatchOk rb /\
    fst (validate_data_points JsonText.json_loads harness "data_points" world
           (Some (["nothere"] ++ ["foo"])%list)) = BatchOk rab /\
    (successful_files rab = successful_files ra + successful_files rb)%Z.
Proof.
  destruct (batch_in_two_parts JsonText.json_loads harness "data_points" world
              ["nothere"] ["foo"]) as [ra [rb [rab [Ha [Hb [Hab [_ [Hs _]]]]]]]].
  - discriminate.
  - discriminate.
  - exists ra, rb, rab. rewrite Ha, Hb, Hab. repeat split. exact Hs.
Defined.

End BatchProps.

(** ** Discovery: from the record files to their names and back *)

Module DiscoveryProps.

Import DataLoader Shape Terms.

Lemma length_app (a b : string) :
  String.length (a ++ b) = (String.length a + String.length b)%nat.
Proof.
  induction a as [|x a IH]; [reflexivity|].
  change (String x a ++ b) with (String x (a ++ b)). simpl. now rewrite IH.
Qed.

Lemma substring_all (s : string) : String.substring 0 (String.length s) s = s.
Proof. induction s as [|x s IH]; [reflexivity|]. simpl. now rewrite IH. Qed.

Lemma substring_prefix (a b : string) :
  String.substring 0 (String.length a) (a ++ b) = a.
Proof.
  induction a as [|x a IH]; [now destruct b|].
  change (String x a ++ b) with (String x (a ++ b)). simpl. now rewrite IH.
Qed.

Lemma starts_with_split (pre s : string) :
  starts_with pre s = true ->
  s = pre ++ String.substring (String.length pre)
               (String.length s - String.length pre) s.
Proof.
  revert s. induction pre as [|a pre IH]; intros s H.
  - simpl. rewrite Nat.sub_0_r, substring_all. reflexivity.
  - destruct s as [|b s]; [discriminate H|]. simpl in H.
    apply andb_prop in H as [Hab Hs]. apply Ascii.eqb_eq in Hab as ->.
    change (String b pre ++ ?t) with (String b (pre ++ t)).
    simpl. f_equal. apply IH, Hs.
Qed.

Lemma rev_app_spec (a b : string) : String.rev_app a b = String.rev a ++ b.
Proof.
  revert b. induction a as [|x a IH]; intros b; [reflexivity|].
  unfold String.rev. simpl. rewrite (IH (String x b)), (IH (String x "")).
  rewrite FormatterFacts.app_assoc. reflexivity.
Qed.

Lemma rev_app_distr (a b : string) :
  String.rev (a ++ b) = String.rev b ++ String.rev a.
Proof.
  unfold String.rev at 1. rewrite LoaderProps.rev_app_app, rev_app_spec.
  reflexivity.
Qed.

Lemma rev_involutive (s : string) : String.rev (String.rev s) = s.
Proof.
  induction s as [|x s IH]; [reflexivity|].
  unfold String.rev at 2. simpl. rewrite rev_app_spec, rev_app_distr, IH.
  reflexivity.
Qed.

Lemma ends_with_split (name : string) :
  ends_with name ".json" = true -> exists b, name = b ++ ".json".
Proof.
  unfold ends_with. intros H. apply starts_with_split in H.
  exists (String.rev (String.substring 5 (String.length (String.rev name) - 5)
                        (String.rev name))).
  rewrite <- (rev_involutive name) at 1. rewrite H at 1.
  rewrite rev_app_distr. reflexivity.
Qed.

Lemma has_slash_app (a b : string) :
  has_slash (a ++ b) = has_slash a || has_slash b.
Proof.
  induction a as [|x a IH]; [reflexivity|].
  change (String x a ++ b) with (String x (a ++ b)). simpl.
  now rewrite IH, orb_assoc.
Qed.

Lemma path_join_name (dir name : string) :
  has_slash name = false -> name <> "" ->
  path_join dir name = dir ++ "/" ++ name.
Proof.
  intros Hs Hn. unfold path_join.
  destruct name as [|a t]; [now destruct Hn|]. simpl in Hs.
  apply orb_false_elim in Hs as [Ha _].
  change (String.eqb (String a t) "") with false.
  change (starts_with "/" (String a t)) with (Ascii.eqb "/" a && true).
  rewrite Ascii.eqb_sym, Ha. reflexivity.
Qed.

Lemma entry_name_split (dir p name : string) :
  entry_name dir p = Some name ->
  p = dir ++ "/" ++ name /\ has_slash name = false /\ name <> "".
Proof.
  unfold entry_name.
  destruct (starts_with (dir ++ "/") p) eqn:Hs; [|discriminate].
  apply starts_with_split in Hs.
  destruct (has_slash _ || String.eqb _ "") eqn:Hb; [discriminate|].
  intros [= <-]. apply orb_false_elim in Hb as [Hsl He].
  split; [|split].
  - rewrite <- FormatterFacts.app_assoc. exact Hs.
  - exact Hsl.
  - intros Hn. rewrite Hn in He. discriminate He.
Qed.

Lemma glob_entry (st : state) (dir p : string) :
  In p (glob_json st dir) ->
  exists_ st p = Ok true /\
  exists b, entry_name dir p = Some (b ++ ".json").
Proof.
  unfold glob_json. rewrite filter_In. intros [_ Hf].
  destruct (entry_name dir p) as [name|]; [|discriminate].
  apply andb_prop in Hf as [Hf Hl]. split.
  - unfold listed in Hl. unfold exists_.
    destruct (fs st !! p) as [[| | |]|]; try discriminate Hl; reflexivity.
  - destruct (ends_with_split _ Hf) as [b ->]. eauto.
Qed.

Lemma stem_entry (dir p b : string) :
  entry_name dir p = Some (b ++ ".json") ->
  stem dir p = if String.eqb b "" then ".json" else b.
Proof.
  intros H. unfold stem. rewrite H, length_app.
  change (String.length ".json") with 5.
  replace (String.length b + 5 - 5) with (String.length b) by lia.
  rewrite substring_prefix.
  destruct (String.eqb_spec b "") as [->|]; reflexivity.
Qed.

Section Props.

Variable json_loads : string -> Result json.

(** A discovered record file whose stem does not itself end in [.json] is
    found again under its stem: the loader resolves the stem to the path
    of the file and loads that file. *)
Theorem discovered_file_resolves (st : state) (dir p : string) :
  In p (glob_json st dir) ->
  ends_with (stem dir p) ".json" = false ->
  file_path_of dir (stem dir p) = p /\
  load_named json_loads st dir (stem dir p)
  = _load_single_data_point json_loads st p.
Proof.
  intros Hin He. destruct (glob_entry _ _ _ Hin) as [Hex [b Hb]].
  rewrite (stem_entry _ _ _ Hb) in *.
  destruct (entry_name_split _ _ _ Hb) as [Hp [Hsl Hne]].
  destruct (String.eqb_spec b "") as [Hb0|Hbne]; [discriminate He|].
  assert (file_path_of dir b = p) as Hpath.
  { unfold file_path_of. rewrite He, (path_join_name _ _ Hsl Hne).
    symmetry. exact Hp. }
  split; [exact Hpath|]. unfold load_named. rewrite Hpath, Hex. reflexivity.
Qed.

(** A discovered record file with a doubled suffix is looked for without
    its last suffix: when the stem ends in [.json] and the file is not
    named [.json], the loader resolves the stem to the path of the file
    less its final [.json]. *)
Theorem doubled_suffix_resolves_short (st : state) (dir p : string) :
  In p (glob_json st dir) ->
  ends_with (stem dir p) ".json" = true ->
  p <> dir ++ "/" ++ ".json" ->
  p = file_path_of dir (stem dir p) ++ ".json".
Proof.
  intros Hin He Hp'. destruct (glob_entry _ _ _ Hin) as [_ [b Hb]].
  rewrite (stem_entry _ _ _ Hb) in *.
  destruct (entry_name_split _ _ _ Hb) as [Hp [Hsl Hne]].
  destruct (String.eqb_spec b "") as [Hb0|Hbne].
  - subst b. now destruct Hp'.
  - unfold file_path_of. rewrite He.
    rewrite has_slash_app in Hsl. apply orb_false_elim in Hsl as [Hsl _].
    rewrite (path_join_name _ _ Hsl Hbne), Hp.
    rewrite !FormatterFacts.app_assoc. reflexivity.
Qed.

End Props.

Import Scenario.

(** The record file of [foo] in the scenario world. *)
Lemma discovered_file_resolves_witness :
  file_path_of "data_points" (stem "data_points" "data_points/foo.json")
  = "data_points/foo.json".
Proof.
  apply (discovered_file_resolves JsonText.json_loads world "data_points"
           "data_points/foo.json").
  - vm_compute. repeat (try (left; reflexivity); right).
  - reflexivity.
Defined.

(** A record file named [a.json.json]. *)
Lemma doubled_suffix_resolves_short_witness :
  "data_points/a.json.json"
  = file_path_of "data_points"
      (stem "data_points" "data_points/a.json.json") ++ ".json".
Proof.
  apply (doubled_suffix_resolves_short
           (world_with "data_points/a.json.json" (File "{}")) "data_points"
           "data_points/a.json.json").
  - vm_compute. repeat (try (left; reflexivity); right).
  - reflexivity.
  - discriminate.
Defined.

End DiscoveryProps.

(** ** From a record file to a successful file *)

Module EndToEndProps.

Import DataLoader Formatter Validator Shape Terms.

Section Props.

Variable json_loads : string -> Result json.
Variable harness :
  gmap string node -> list string -> docker_outcome * gmap string node.
Variable data_points_dir : string.

#[local] Abbreviation validate_file :=
  (_validate_single_file json_loads harness data_points_dir).

(** A target ends as a successful file when its record loads with a text
    for instance id, the predictions file can be written, the harness
    returns code 0 and leaves a report of the consumed shape whose
    [success] lists have the members the record expects and whose
    [resolved] value is true. *)
Theorem successful_file (st : state) (file_name iid : string) (dp : json)
  (ef ep af ap : list string) (report : json) :
  loaded json_loads data_points_dir st file_name = Some dp ->
  iid <> "" ->
  expects json_loads dp iid (test_ids ef) (test_ids ep) ->
  writable st (predictions_path file_name) = true ->
  let out := harness (fs_for_harness st file_name dp)
               (docker_cmd (predictions_path file_name) file_name) in
  let report_path :=
    path_join
      (path_join
         (path_join (path_join "logs/run_evaluation" file_name) "gpt-4") iid)
      "report.json" in
  fst out = Returned 0 ->
  (exists c, snd out !! report_path = Some (File c) /\
             json_loads c = Ok report) ->
  report_shape report iid = true ->
  success_list report iid "FAIL_TO_PASS" = test_ids af ->
  success_list report iid "PASS_TO_PASS" = test_ids ap ->
  (forall t, In t ef <-> In t af) ->
  (forall t, In t ep <-> In t ap) ->
  truthy (sub (sub report iid (JObj [])) "resolved" (JBool false)) = true ->
  successful (fst (validate_file st file_name)) = true.
Proof.
  intros Hl Hi He Hw out report_path Ho [c [Hc Hr]] Hs Hf Hp Hef Hep Hres.
  subst out report_path.
  rewrite (PipelineProps.validate_file_steps json_loads harness), Hl.
  assert (field dp "instance_id" = JStr iid) as Hid.
  { destruct He as [Hg _]. destruct dp; try discriminate Hg. simpl in Hg |- *.
    destruct (assoc "instance_id" kvs); [now injection Hg|discriminate Hg]. }
  rewrite Hid. cbn [truthy]. apply String.eqb_neq in Hi. rewrite Hi, Hw.
  simpl negb. cbv iota zeta.
  destruct (harness (fs_for_harness st file_name dp) _) as [o fs'].
  cbn [fst snd] in *. rewrite Ho. simpl Z.eqb. cbv iota.
  rewrite (CompareFacts.expects_prefix _ _ _ _ _ _ _ He). cbv zeta.
  unfold exists_. cbn [fs]. rewrite Hc. cbn [bind negb]. cbv iota.
  unfold read_and_compare, json_load, read_text. cbn [fs]. rewrite Hc.
  simpl. rewrite Hr. simpl.
  rewrite (CompareFacts.extract_shape _ _ Hs). simpl. rewrite Hf, Hp.
  unfold set_eq. rewrite !CompareFacts.set_of_test_ids. simpl.
  assert (exists kvs, sub report iid (JObj []) = JObj kvs) as [kvs Hk].
  { unfold report_shape in Hs. destruct (sub report iid (JObj []));
      rewrite ?andb_false_r in Hs; try discriminate Hs. eauto. }
  rewrite Hk in *. simpl in Hres |- *.
  rewrite (bool_decide_eq_true_2 _ (proj2 (CompareFacts.ids_set_eq ef af) Hef)).
  rewrite (bool_decide_eq_true_2 _ (proj2 (CompareFacts.ids_set_eq ep ap) Hep)).
  rewrite Hres. reflexivity.
Qed.

End Props.

Import Scenario.

(** The target [foo] of the scenario world. *)
Lemma successful_file_witness :
  successful
    (fst (_validate_single_file JsonText.json_loads harness "data_points"
            world "foo")) = true.
Proof.
  apply (successful_file JsonText.json_loads harness "data_points" world
           "foo" "foo" foo ["t1"] [] ["t1"] []
           (report "foo" (JBool true) ["t1"] [])).
  - vm_compute. reflexivity.
  - discriminate.
  - repeat split; vm_compute; reflexivity.
  - vm_compute. reflexivity.
  - vm_compute. reflexivity.
  - exists (json_dumps (report "foo" (JBool true) ["t1"] [])).
    split; vm_compute; reflexivity.
  - reflexivity.
  - reflexivity.
  - reflexivity.
  - tauto.
  - tauto.
  - reflexivity.
Defined.

End EndToEndProps.
